(** * Decklyst: deck pages and the save-deck dialog

    A shallow embedding of

    - [src/pages/decks/[code].tsx], static variant:
      [getStaticPaths], [getStaticProps] and the retry predicate of the
      page's [decklyst.get] query;
    - [src/pages/decks/[code].tsx], server-side variant:
      [getServerSideProps] and the retry options of the deck-image query;
    - [src/components/Deckbuilder/SaveDeckDialog.tsx]:
      [handleClose] and [createSaveHandler].

    JavaScript strings are modelled by [string], read as the UTF-8 bytes of
    the text.  Everything the pages measure or lower-case is the output of
    [encodeURIComponent] behind an ASCII prefix, where bytes, UTF-16 code
    units and characters coincide. *)

From Stdlib Require Import List String Ascii Bool Arith ZArith Lia.
Import ListNotations.
Local Open Scope string_scope.
Local Open Scope list_scope.
Local Open Scope nat_scope.

(* ================================================================== *)
(** ** JavaScript built-ins used by the pages *)

Module Js.

(** Outcome of awaiting a promise: it resolves with a value or rejects. *)
Inductive Outcome (E A : Type) : Type :=
| Resolved (a : A)
| Rejected (e : E).
Arguments Resolved {E A} a.
Arguments Rejected {E A} e.

(** [!!s] for a string: only the empty string is falsy. *)
Definition truthy (s : string) : bool :=
  match s with
  | EmptyString => false
  | String _ _ => true
  end.

(** [!!v] for [string | undefined]. *)
Definition truthy_opt (v : option string) : bool :=
  match v with
  | Some s => truthy s
  | None => false
  end.

(** [a ?? b] *)
Definition nullish {A : Type} (a : option A) (b : A) : A :=
  match a with
  | Some x => x
  | None => b
  end.

Definition in_range (lo hi n : nat) : bool := (lo <=? n) && (n <=? hi).

(** The characters [encodeURIComponent] leaves alone:
    [A-Z a-z 0-9 - _ . ! ~ * ' ( )]. *)
Definition unreserved (c : ascii) : bool :=
  let n := nat_of_ascii c in
  in_range 65 90 n || in_range 97 122 n || in_range 48 57 n
  || existsb (Nat.eqb n) [45; 95; 46; 33; 126; 42; 39; 40; 41].

Definition hex_digit (n : nat) : ascii :=
  if n <? 10 then ascii_of_nat (48 + n) else ascii_of_nat (55 + n).

(** [%XX], upper-case hexadecimal, for one byte of the UTF-8 encoding. *)
Definition percent (c : ascii) : string :=
  let n := nat_of_ascii c in
  String "%" (String (hex_digit (n / 16)) (String (hex_digit (n mod 16)) EmptyString)).

Fixpoint encodeURIComponent (s : string) : string :=
  match s with
  | EmptyString => EmptyString
  | String c r =>
      if unreserved c then String c (encodeURIComponent r)
      else (percent c ++ encodeURIComponent r)%string
  end.

Definition lower_ascii (c : ascii) : ascii :=
  let n := nat_of_ascii c in
  if in_range 65 90 n then ascii_of_nat (n + 32) else c.

(** [s.toLowerCase()] on ASCII text. *)
Fixpoint toLowerCase (s : string) : string :=
  match s with
  | EmptyString => EmptyString
  | String c r => String (lower_ascii c) (toLowerCase r)
  end.

(** [c.repeat(n)] for a one-character string. *)
Fixpoint repeat (c : ascii) (n : nat) : string :=
  match n with
  | 0 => EmptyString
  | S n' => String c (repeat c n')
  end.

Definition is_ascii (c : ascii) : bool := nat_of_ascii c <? 128.

Fixpoint all_ascii (s : string) : bool :=
  match s with
  | EmptyString => true
  | String c r => is_ascii c && all_ascii r
  end.

End Js.

(* ================================================================== *)
(** ** lodash *)

Module Lodash.

Section UniqBy.
Context {A B : Type}.
Variable eqb : B -> B -> bool.
Variable iteratee : A -> B.

(** [baseUniq]: walk the array once, keep a value when its computed key
    has not been seen, and remember the key. *)
Fixpoint baseUniq (seen : list B) (array : list A) : list A :=
  match array with
  | [] => []
  | value :: rest =>
      let computed := iteratee value in
      if existsb (eqb computed) seen
      then baseUniq seen rest
      else value :: baseUniq (computed :: seen) rest
  end.

Definition uniqBy (array : list A) : list A := baseUniq [] array.
End UniqBy.

End Lodash.

(* ================================================================== *)
(** ** The persisted records *)

Inductive Privacy : Type :=
| PrivacyPrivate
| PrivacyUnlisted
| PrivacyPublic.

Definition privacy_eqb (a b : Privacy) : bool :=
  match a, b with
  | PrivacyPrivate, PrivacyPrivate => true
  | PrivacyUnlisted, PrivacyUnlisted => true
  | PrivacyPublic, PrivacyPublic => true
  | _, _ => false
  end.

(** The columns of a decklyst row that the pages read. *)
Record Decklyst : Type := mkDecklyst {
  deckcode : string;
  sharecode : string;
  privacy : Privacy;
}.

(** The table behind [prisma.decklyst]. *)
Definition Table : Type := list Decklyst.

(** The filter [{ privacy: { not: 'private' } }]. *)
Definition not_private (d : Decklyst) : bool :=
  negb (privacy_eqb (privacy d) PrivacyPrivate).

(* ================================================================== *)
(** ** Static variant of the page: [getStaticPaths] *)

Module StaticPage.

(** [prisma.decklyst.findMany({ select: { deckcode, sharecode },
                                where: { privacy: { not: 'private' } } })] *)
Definition findMany_not_private (table : Table) : list (string * string) :=
  map (fun d => (deckcode d, sharecode d))
      (filter not_private table).

Definition deck_path (code : string) : string :=
  ("/decks/" ++ Js.encodeURIComponent code)%string.

Definition length_ok (code : string) : bool :=
  (0 <? String.length code) && (String.length code <=? 205).

(** The array handed to [uniqBy]. *)
Definition candidates (decklysts : list (string * string)) : list string :=
  filter length_ok
    (map deck_path
       (flat_map (fun '(deckcode, sharecode) => [deckcode; sharecode]) decklysts)).

Inductive Fallback : Type := FallbackBlocking | FallbackTrue | FallbackFalse.

Record StaticPaths : Type := mkStaticPaths {
  paths : list string;
  fallback : Fallback;
}.

Definition getStaticPaths (table : Table) : StaticPaths :=
  let decklysts := findMany_not_private table in
  {| paths := Lodash.uniqBy String.eqb Js.toLowerCase (candidates decklysts);
     fallback := FallbackBlocking |}.

End StaticPage.

(* ================================================================== *)
(** ** tRPC errors and react-query, as far as the pages configure them *)

Module Trpc.

(** [error.data], of which the page reads [code]. *)
Record ErrorData : Type := mkErrorData {
  code : string;
}.

Record ClientError : Type := mkClientError {
  message : string;
  data : option ErrorData;
}.

(** [error.data?.code] *)
Definition error_code (error : ClientError) : option string :=
  match data error with
  | Some d => Some (code d)
  | None => None
  end.

End Trpc.

Definition Async : Type -> Type := Js.Outcome Trpc.ClientError.

Module ReactQuery.

(** The [retry] option: [boolean | number | (failureCount, error) => boolean]. *)
Inductive RetryOption (E : Type) : Type :=
| RetryBoolean (b : bool)
| RetryNumber (n : nat)
| RetryFunction (f : nat -> E -> bool).
Arguments RetryBoolean {E} b.
Arguments RetryNumber {E} n.
Arguments RetryFunction {E} f.

(** [retry === true || (typeof retry === 'number' && failureCount < retry)
     || (typeof retry === 'function' && retry(failureCount, error))] *)
Definition shouldRetry {E : Type} (retry : RetryOption E) (failureCount : nat) (error : E) : bool :=
  match retry with
  | RetryBoolean b => b
  | RetryNumber n => failureCount <? n
  | RetryFunction f => f failureCount error
  end.

(** What the retryer has done once it stops, or once the budget of the
    model is used up: the number of failures counted and the delays slept. *)
Inductive Run (E A : Type) : Type :=
| Succeeded (value : A) (failureCount : nat) (slept : list Z)
| GaveUp (error : E) (failureCount : nat) (slept : list Z)
| StillRetrying (failureCount : nat) (slept : list Z).
Arguments Succeeded {E A} value failureCount slept.
Arguments GaveUp {E A} error failureCount slept.
Arguments StillRetrying {E A} failureCount slept.

Section Retryer.
Context {E A : Type}.
Variable retry : RetryOption E.
Variable retryDelay : Z -> Z.
(** [fn k] is the outcome of the call made after [k] failures. *)
Variable fn : nat -> Js.Outcome E A.

(** The retryer's loop: call, and on failure either reject or count the
    failure, sleep [retryDelay failureCount] and call again.  [budget]
    bounds the number of retries the model follows. *)
Fixpoint run (budget failureCount : nat) (slept : list Z) : Run E A :=
  match fn failureCount with
  | Js.Resolved value => Succeeded value failureCount slept
  | Js.Rejected error =>
      let delay := retryDelay (Z.of_nat failureCount) in
      if shouldRetry retry failureCount error then
        match budget with
        | 0 => StillRetrying failureCount slept
        | S budget' => run budget' (S failureCount) (slept ++ [delay])
        end
      else GaveUp error failureCount slept
  end.
End Retryer.

(** [dehydrate(client, { shouldDehydrateQuery })]: the queries of the cache
    that the predicate accepts, in cache order. *)
Record DehydratedState (Q : Type) : Type := mkDehydratedState {
  queries : list Q;
}.
Arguments mkDehydratedState {Q} queries.
Arguments queries {Q} d.

Definition dehydrate {Q : Type} (cache : list Q) (shouldDehydrateQuery : Q -> bool)
  : DehydratedState Q :=
  {| queries := filter shouldDehydrateQuery cache |}.

End ReactQuery.

(* ================================================================== *)
(** ** Static variant of the page: the query and [getStaticProps] *)

Module DeckPage.

(** [retry: (count, error) =>
      (error.data?.code === 'UNAUTHORIZED' ? false : count < 3)] *)
Definition retry (count : nat) (error : Trpc.ClientError) : bool :=
  if match Trpc.error_code error with
     | Some c => String.eqb c "UNAUTHORIZED"
     | None => false
     end
  then false
  else count <? 3.

Definition retryOption : ReactQuery.RetryOption Trpc.ClientError :=
  ReactQuery.RetryFunction retry.

End DeckPage.

Module StaticProps.

(** Input of the [decklyst.get] procedure. *)
Record GetInput : Type := mkGetInput {
  code : string;
  ssrSecret : string;
}.

(** A query held by the SSG helper's query client. *)
Record Query : Type := mkQuery {
  queryKey : GetInput;
  queryData : option Decklyst;
}.

Record SSGClient : Type := mkSSGClient {
  cache : list Query;
}.

(** What the page is given by the server side: the environment, the SSG
    helper and the [decklyst.get] procedure behind it.  [fetch] answers
    with the record, with [null], or rejects, and leaves the helper's
    query client in some state. *)
Record Server : Type := mkServer {
  SSR_SECRET : string;
  createSSGClient : SSGClient;
  fetch : GetInput -> SSGClient -> Async (option Decklyst) * SSGClient;
}.

Record Params : Type := mkParams {
  params_code : option string;
}.

Record GetStaticPropsContext : Type := mkContext {
  params : option Params;
}.

Record Props : Type := mkProps {
  props_code : string;
  trpcState : ReactQuery.DehydratedState Query;
  decklyst : option Decklyst;
}.

Inductive GetStaticPropsResult : Type :=
| NotFound (revalidate : option bool)
| WithProps (props : Props).

Definition is_private (decklyst : option Decklyst) : bool :=
  match decklyst with
  | Some d => privacy_eqb (privacy d) PrivacyPrivate
  | None => false
  end.

(** [ctx.params?.code] *)
Definition requested_code (ctx : GetStaticPropsContext) : option string :=
  match params ctx with
  | Some p => params_code p
  | None => None
  end.

Definition getStaticProps (server : Server) (ctx : GetStaticPropsContext)
  : Async GetStaticPropsResult :=
  let code := requested_code ctx in
  match code with
  | None => Js.Resolved (NotFound None)
  | Some code =>
      if negb (Js.truthy code) then Js.Resolved (NotFound None)
      else
        let ssg := createSSGClient server in
        let '(fetched, ssg) :=
          fetch server {| code := code; ssrSecret := SSR_SECRET server |} ssg in
        match fetched with
        | Js.Rejected e => Js.Rejected e
        | Js.Resolved decklyst =>
            let isPrivate := is_private decklyst in
            match decklyst with
            | Some d =>
                Js.Resolved
                  (WithProps
                     {| props_code := code;
                        trpcState :=
                          ReactQuery.dehydrate (cache ssg) (fun _ => negb isPrivate);
                        decklyst := if isPrivate then None else Some d |})
            | None => Js.Resolved (NotFound (Some true))
            end
        end
  end.

(** The answer of the fetch that [getStaticProps] issues for [code]. *)
Definition fetched (server : Server) (code : string) : Async (option Decklyst) :=
  fst (fetch server {| code := code; ssrSecret := SSR_SECRET server |}
         (createSSGClient server)).

(** The decklyst prop of a result, when there is one. *)
Definition decklyst_of (r : Async GetStaticPropsResult) : option Decklyst :=
  match r with
  | Js.Resolved (WithProps props) => decklyst props
  | _ => None
  end.

Definition is_notFound (r : Async GetStaticPropsResult) : bool :=
  match r with
  | Js.Resolved (NotFound _) => true
  | _ => false
  end.

(** Modelled from the spec: the [decklyst.get] procedure and the SSG helper
    of [@/server] are not part of the sources at hand.  The route
    "resolves to a deck by deckcode or sharecode"; the helper starts with
    an empty query client and records the answer of each fetch. *)
Definition findByCode (table : Table) (code : string) : option Decklyst :=
  find (fun d => String.eqb (deckcode d) code || String.eqb (sharecode d) code) table.

Definition tableServer (secret : string) (table : Table) : Server :=
  {| SSR_SECRET := secret;
     createSSGClient := {| cache := [] |};
     fetch := fun input ssg =>
       let found := findByCode table (code input) in
       (Js.Resolved found,
        {| cache := cache ssg ++ [ {| queryKey := input; queryData := found |} ] |}) |}.

Definition request (code : string) : GetStaticPropsContext :=
  {| params := Some {| params_code := Some code |} |}.

End StaticProps.

(* ================================================================== *)
(** ** Server-side variant of the page *)

Module ServerPage.

(** [retry: true] of the deck-image query. *)
Definition retryOption : ReactQuery.RetryOption Trpc.ClientError :=
  ReactQuery.RetryBoolean true.

(** [retryDelay: (retryCount) => 1000 * Math.pow(2, Math.max(0, retryCount - 5))],
    on the integers; the double arithmetic of the source is exact as long
    as the result is finite. *)
Definition retryDelay (retryCount : Z) : Z :=
  1000 * 2 ^ Z.max 0 (retryCount - 5).

(** Answer of [getDeckinfo] and [ensureDeckinfo], read through [?.] and [??]. *)
Record DeckInfo : Type := mkDeckInfo {
  info_deckcode : option string;
  info_sharecode : option string;
}.

(** The remote calls the page issues through its tRPC client. *)
Inductive Call : Type :=
| QueryGetDeckinfo (code : string)
| MutationEnsureDeckinfo (code : string)
| MutationRegisterView (deckcode : option string) (ipAddress : string).

Definition is_registerView (c : Call) : bool :=
  match c with
  | MutationRegisterView _ _ => true
  | _ => false
  end.

(** The collaborators of the page, none of them part of the sources at
    hand: [validateDeckcode], [createDeck], [getIpAddress], the string to
    number conversion behind [+s === 1], and the procedures behind the
    client, which act on a remote state. *)
Record Backend : Type := mkBackend {
  Deck : Type;
  Card : Type;
  Request : Type;
  Remote : Type;
  cards : Deck -> list Card;
  validateDeckcode : option string -> bool;
  createDeck : option string -> Deck;
  getIpAddress : Request -> string;
  numberIsOne : string -> bool;
  getDeckinfo : string -> Remote -> Async (option DeckInfo) * Remote;
  ensureDeckinfo : string -> Remote -> Async (option DeckInfo) * Remote;
  registerView : option string -> string -> Remote -> Async unit * Remote;
}.

Section Page.
Variable B : Backend.

(** The remote state together with the calls issued so far, oldest first. *)
Record World : Type := mkWorld {
  remote : Remote B;
  issued : list Call;
}.

(** Asynchronous code over the world: it resolves or rejects, and the
    calls it has issued stay issued either way. *)
Definition M (A : Type) : Type := World -> Async A * World.

Definition ret {A : Type} (a : A) : M A := fun w => (Js.Resolved a, w).

Definition bind {A C : Type} (m : M A) (k : A -> M C) : M C :=
  fun w =>
    match m w with
    | (Js.Resolved a, w') => k a w'
    | (Js.Rejected e, w') => (Js.Rejected e, w')
    end.

Definition call {A : Type} (c : Call) (procedure : Remote B -> Async A * Remote B) : M A :=
  fun w =>
    let '(answer, r) := procedure (remote w) in
    (answer, {| remote := r; issued := issued w ++ [c] |}).

Definition client_query_getDeckinfo (code : string) : M (option DeckInfo) :=
  call (QueryGetDeckinfo code) (getDeckinfo B code).

Definition client_mutation_ensureDeckinfo (code : string) : M (option DeckInfo) :=
  call (MutationEnsureDeckinfo code) (ensureDeckinfo B code).

Definition client_mutation_registerView (deckcode : option string) (ipAddress : string)
  : M unit :=
  call (MutationRegisterView deckcode ipAddress) (registerView B deckcode ipAddress).

Record Query : Type := mkQuery {
  query_code : option string;
  query_snapshot : option string;
}.

Record Meta : Type := mkMeta {
  meta_sharecode : option string;
}.

Record Props : Type := mkProps {
  deck : Deck B;
  meta : Meta;
  isSnapshot : bool;
}.

Inductive GetServerSidePropsResult : Type :=
| NotFound
| WithProps (props : Props).

(** [+((query.snapshot as string | undefined) ?? '0') === 1] *)
Definition snapshot_of (query : Query) : bool :=
  numberIsOne B (Js.nullish (query_snapshot query) "0").

Local Notation "x <- m ;; k" := (bind m (fun x => k))
  (at level 61, m at next level, right associativity).

(** The first half of [getServerSideProps]: the pair [(deckcode, sharecode)]
    after the optional lookup. *)
Definition resolve (query : Query) : M (option string * option string) :=
  let code := query_code query in
  let snapshot := snapshot_of query in
  let deckcode := code in
  let sharecode := @None string in
  match code with
  | Some c =>
      if Js.truthy c then
        deck <- (if snapshot
                 then client_query_getDeckinfo c
                 else client_mutation_ensureDeckinfo c) ;;
        ret (match deck with
             | Some d => (match info_deckcode d with
                          | Some dc => Some dc
                          | None => deckcode
                          end,
                          match info_sharecode d with
                          | Some sc => Some sc
                          | None => sharecode
                          end)
             | None => (deckcode, sharecode)
             end)
      else ret (deckcode, sharecode)
  | None => ret (deckcode, sharecode)
  end.

Definition getServerSideProps (req : Request B) (query : Query)
  : M GetServerSidePropsResult :=
  let snapshot := snapshot_of query in
  codes <- resolve query ;;
  let '(deckcode, sharecode) := codes in
  if negb (validateDeckcode B deckcode) then ret NotFound
  else
    let deck := createDeck B deckcode in
    if List.length (cards B deck) =? 0 then ret NotFound
    else
      _ <- (if negb snapshot
            then client_mutation_registerView deckcode (getIpAddress B req)
            else ret tt) ;;
      ret (WithProps {| deck := deck;
                        meta := {| meta_sharecode := sharecode |};
                        isSnapshot := snapshot |}).

(** The page served to one request, starting from a remote state and no
    call issued. *)
Definition serve (req : Request B) (query : Query) (r : Remote B)
  : Async GetServerSidePropsResult * World :=
  getServerSideProps req query {| remote := r; issued := [] |}.

End Page.

Arguments NotFound {B}.
Arguments WithProps {B} props.
Arguments mkWorld {B} remote issued.
Arguments remote {B} w.
Arguments issued {B} w.

(** A small backend to run the page on.  A deckcode is valid when it is a
    non-empty string, its cards are its decimal digits, nothing is known
    under a sharecode, and the remote state counts the registered views. *)
Definition is_digit (c : ascii) : bool := Js.in_range 48 57 (nat_of_ascii c).

Definition digitBackend : Backend :=
  {| Deck := string;
     Card := ascii;
     Request := string;
     Remote := nat;
     cards := fun deck => filter is_digit (list_ascii_of_string deck);
     validateDeckcode := Js.truthy_opt;
     createDeck := fun deckcode => Js.nullish deckcode "";
     getIpAddress := fun req => req;
     numberIsOne := String.eqb "1";
     getDeckinfo := fun _ views => (Js.Resolved None, views);
     ensureDeckinfo := fun _ views => (Js.Resolved None, views);
     registerView := fun _ _ views => (Js.Resolved tt, S views) |}.

End ServerPage.

(* ================================================================== *)
(** ** The save-deck dialog *)

Module SaveDeckDialog.

(** What the dialog does to its surroundings.  The [onClose] prop is a
    function; a number stands for its identity. *)
Inductive Effect : Type :=
| CallOnClose (onClose : nat).

(** The values a render of the component has at hand: the [onClose] prop
    and [isSaving], the [isLoading] flag of the upsert mutation. *)
Record Render : Type := mkRender {
  onClose : nat;
  isSaving : bool;
}.

(** [() => { if (isSaving) return; onClose() }], closed over the values of
    the render that created it. *)
Definition handleClose_body (created_in : Render) : list Effect :=
  if isSaving created_in then []
  else [CallOnClose (onClose created_in)].

(** The cell of [useCallback(..., [onClose, isSaving])]: the dependencies
    and the render whose closure is kept. *)
Record Memo : Type := mkMemo {
  deps : nat * bool;
  kept : Render;
}.

Definition same_deps (a b : nat * bool) : bool :=
  (fst a =? fst b) && Bool.eqb (snd a) (snd b).

Definition useCallback (cell : option Memo) (r : Render) : Memo :=
  let now := (onClose r, isSaving r) in
  match cell with
  | Some m => if same_deps (deps m) now then m else {| deps := now; kept := r |}
  | None => {| deps := now; kept := r |}
  end.

(** A cell whose dependencies are those of the render it keeps. *)
Definition memo_ok (cell : option Memo) : Prop :=
  match cell with
  | Some m => deps m = (onClose (kept m), isSaving (kept m))
  | None => True
  end.

(** The cell after a sequence of renders, first render first. *)
Fixpoint rendered (cell : option Memo) (renders : list Render) : option Memo :=
  match renders with
  | [] => cell
  | r :: rest => rendered (Some (useCallback cell r)) rest
  end.

(** Invoking the [handleClose] of the latest render; before any render
    there is no dialog to close. *)
Definition handleClose (renders : list Render) : list Effect :=
  match rendered None renders with
  | Some m => handleClose_body (kept m)
  | None => []
  end.

End SaveDeckDialog.

(* ================================================================== *)
(** ** The shape of an encoded URI component *)

Module Uri.

Definition is_hex (c : ascii) : bool :=
  let n := nat_of_ascii c in
  Js.in_range 48 57 n || Js.in_range 65 70 n.

(** Text made of unreserved characters and of escapes [%XX] with two
    upper-case hexadecimal digits, and of nothing else. *)
Fixpoint well_escaped (s : string) : bool :=
  match s with
  | EmptyString => true
  | String c r =>
      if Ascii.eqb c "%" then
        match r with
        | String h (String l r') => is_hex h && is_hex l && well_escaped r'
        | _ => false
        end
      else Js.unreserved c && well_escaped r
  end.

(** The value of a hexadecimal digit of either case, and the byte that the
    two digits of an escape stand for. *)
Definition hex_value (c : ascii) : nat :=
  let n := nat_of_ascii c in
  if Js.in_range 48 57 n then n - 48
  else if Js.in_range 65 70 n then n - 55
  else if Js.in_range 97 102 n then n - 87
  else 0.

Definition byte_of_hex (h l : ascii) : ascii :=
  ascii_of_nat (16 * hex_value h + hex_value l).

End Uri.

(* ================================================================== *)
(** ** The save-deck dialog: its form state, its buttons and the save handler *)

Module SaveDeckForm.

(** The values of the [Archetype] enumeration are strings. *)
Definition Archetype : Type := string.

(** [baseDeck?.meta], as far as the dialog reads it. *)
Record Meta : Type := mkMeta {
  meta_sharecode : option string;
  meta_archetype : option Archetype;
  meta_privacy : option Privacy;
}.

Record DeckExpanded : Type := mkDeckExpanded {
  meta : option Meta;
}.

Record Props : Type := mkProps {
  open : bool;
  baseDeck : option DeckExpanded;
}.

Definition base_meta (props : Props) : option Meta :=
  match baseDeck props with
  | Some d => meta d
  | None => None
  end.

(** [baseDeck?.meta?.sharecode] *)
Definition base_sharecode (props : Props) : option string :=
  match base_meta props with
  | Some m => meta_sharecode m
  | None => None
  end.

(** [baseDeck?.meta?.archetype] *)
Definition base_archetype (props : Props) : option Archetype :=
  match base_meta props with
  | Some m => meta_archetype m
  | None => None
  end.

(** [baseDeck?.meta?.privacy] *)
Definition base_privacy (props : Props) : option Privacy :=
  match base_meta props with
  | Some m => meta_privacy m
  | None => None
  end.

(** The two [useState] cells. *)
Record State : Type := mkState {
  archetype : option Archetype;
  privacy : Privacy;
}.

(** The initial values: [baseDeck?.meta?.archetype ?? null] and
    [baseDeck?.meta?.privacy ?? 'unlisted']. *)
Definition initial_state (props : Props) : State :=
  {| archetype := base_archetype props;
     privacy := Js.nullish (base_privacy props) PrivacyUnlisted |}.

(** The body of the effect: [if (open) { setArchetype(...); setPrivacy(...) }]. *)
Definition effect (props : Props) (s : State) : State :=
  if open props
  then {| archetype := base_archetype props;
          privacy := Js.nullish (base_privacy props) PrivacyUnlisted |}
  else s.

(** The dependencies of the effect:
    [[baseDeck?.meta?.archetype, baseDeck?.meta?.privacy, open]]. *)
Definition Deps : Type := option Archetype * option Privacy * bool.

Definition deps_of (props : Props) : Deps :=
  (base_archetype props, base_privacy props, open props).

Definition option_eqb {A : Type} (eqb : A -> A -> bool) (a b : option A) : bool :=
  match a, b with
  | Some x, Some y => eqb x y
  | None, None => true
  | _, _ => false
  end.

Definition deps_eqb (a b : Deps) : bool :=
  let '(arch_a, priv_a, open_a) := a in
  let '(arch_b, priv_b, open_b) := b in
  option_eqb String.eqb arch_a arch_b
  && option_eqb privacy_eqb priv_a priv_b
  && Bool.eqb open_a open_b.

(** A mounted dialog: its state and the dependencies of the last run of the
    effect. *)
Record Mounted : Type := mkMounted {
  state : State;
  last_deps : Deps;
}.

(** The first render: the state is initialised and the effect runs. *)
Definition mount (props : Props) : Mounted :=
  {| state := effect props (initial_state props);
     last_deps := deps_of props |}.

(** What happens to a mounted dialog: it is rendered again with props, where
    the effect runs if a dependency has changed, or the user picks a privacy
    or an archetype ([ev.target.value], the empty string for "None"). *)
Inductive Event : Type :=
| Render (props : Props)
| PickPrivacy (value : Privacy)
| PickArchetype (value : string).

Definition step (m : Mounted) (ev : Event) : Mounted :=
  match ev with
  | Render props =>
      if deps_eqb (last_deps m) (deps_of props) then m
      else {| state := effect props (state m); last_deps := deps_of props |}
  | PickPrivacy value =>
      {| state := {| archetype := archetype (state m); privacy := value |};
         last_deps := last_deps m |}
  | PickArchetype value =>
      {| state := {| archetype := Some value; privacy := privacy (state m) |};
         last_deps := last_deps m |}
  end.

Definition run (m : Mounted) (events : list Event) : Mounted :=
  fold_left step events m.

(** Input of [deck.upsert]. *)
Record UpsertInput : Type := mkUpsertInput {
  input_sharecode : option string;
  input_deckcode : string;
  input_archetype : option Archetype;
  input_privacy : Privacy;
}.

(** [updated.meta.sharecode] of the answer of [deck.upsert]. *)
Record Updated : Type := mkUpdated {
  updated_sharecode : option string;
}.

Inductive Action : Type :=
| UpsertDeck (input : UpsertInput)
| RouterPush (code : option string)
| OnClose.

(** The argument of [upsertDeck] in [createSaveHandler(update)]. *)
Definition upsert_input (props : Props) (deckcode : string) (s : State) (update : bool)
  : UpsertInput :=
  {| input_sharecode := if update then base_sharecode props else None;
     input_deckcode := deckcode;
     input_archetype := archetype s;
     input_privacy := privacy s |}.

(** [createSaveHandler(update)()], given what [upsertDeck] and [router.push]
    answer: the actions taken, in order, and the outcome. *)
Definition createSaveHandler
    (upsertDeck : UpsertInput -> Async Updated)
    (push : option string -> Async bool)
    (props : Props) (deckcode : string) (s : State) (update : bool)
  : list Action * Async unit :=
  let input := upsert_input props deckcode s update in
  match upsertDeck input with
  | Js.Rejected e => ([UpsertDeck input], Js.Rejected e)
  | Js.Resolved updated =>
      let code := updated_sharecode updated in
      match push code with
      | Js.Rejected e => ([UpsertDeck input; RouterPush code], Js.Rejected e)
      | Js.Resolved _ => ([UpsertDeck input; RouterPush code; OnClose], Js.Resolved tt)
      end
  end.

(** The buttons at the foot of the dialog: the argument given to
    [createSaveHandler] and the [disabled] attribute. *)
Record Button : Type := mkButton {
  label : string;
  update : bool;
  disabled : bool;
}.

Definition buttons (props : Props) (isSaving : bool) : list Button :=
  if Js.truthy_opt (base_sharecode props)
  then [ {| label := "Save as new"; update := false; disabled := isSaving |};
         {| label := "Update deck"; update := true; disabled := isSaving |} ]
  else [ {| label := "Save deck"; update := false; disabled := isSaving |} ].

End SaveDeckForm.

(* ================================================================== *)
(** ** The deck image of the server-side page *)

Module DeckImage.

(** A call of [ensureDeckimage({ deckcode, forceRender })]. *)
Inductive Call : Type :=
| EnsureDeckimage (deckcode : string) (forceRender : option bool).

(** The page between two events: the [isSnapshot] prop, the [imageDataUri]
    cell, whether a forced render or the refetch of the handler is awaited,
    and the calls made so far. *)
Record Page : Type := mkPage {
  isSnapshot : bool;
  imageDataUri : option string;
  regenerating : bool;
  refetching : bool;
  calls : list Call;
}.

Definition initial (snapshot : bool) : Page :=
  {| isSnapshot := snapshot;
     imageDataUri := None;
     regenerating := false;
     refetching := false;
     calls := [] |}.

Section Page.
Variable Image : Type.
Variable getImageDataUri : Image -> string.
Variable deckcode : string.

(** What happens on the page, with the answer of [ensureDeckimage] where one
    arrives. *)
Inductive Event : Type :=
| QueryRuns (answer : Async Image)
| ClickRegenerate
| RegenerateSettles (answer : Async Image)
| RefetchRuns (answer : Async Image).

(** One run of the query function, with [onSuccess]. *)
Definition query_run (answer : Async Image) (p : Page) : Page :=
  let called := calls p ++ [EnsureDeckimage deckcode None] in
  match answer with
  | Js.Resolved image =>
      {| isSnapshot := isSnapshot p;
         imageDataUri := Some (getImageDataUri image);
         regenerating := regenerating p;
         refetching := false;
         calls := called |}
  | Js.Rejected _ =>
      {| isSnapshot := isSnapshot p;
         imageDataUri := imageDataUri p;
         regenerating := regenerating p;
         refetching := refetching p;
         calls := called |}
  end.

(** [handleRegenerateClick()()] up to its first [await]:
    [setImageDataUri(null)] and the call with [forceRender: true]. *)
Definition regenerate_start (p : Page) : Page :=
  {| isSnapshot := isSnapshot p;
     imageDataUri := None;
     regenerating := true;
     refetching := refetching p;
     calls := calls p ++ [EnsureDeckimage deckcode (Some true)] |}.

(** The rest of the handler: the image on success, the refetch on failure. *)
Definition regenerate_settle (answer : Async Image) (p : Page) : Page :=
  match answer with
  | Js.Resolved image =>
      {| isSnapshot := isSnapshot p;
         imageDataUri := Some (getImageDataUri image);
         regenerating := false;
         refetching := refetching p;
         calls := calls p |}
  | Js.Rejected _ =>
      {| isSnapshot := isSnapshot p;
         imageDataUri := imageDataUri p;
         regenerating := false;
         refetching := true;
         calls := calls p |}
  end.

(** The query runs on its own only while [enabled: !isSnapshot] holds; the
    Regenerate button is [disabled={!imageDataUri}]; the handler settles
    only if it was started, and the refetch runs only if the handler asked
    for it. *)
Definition step (p : Page) (ev : Event) : Page :=
  match ev with
  | QueryRuns answer => if negb (isSnapshot p) then query_run answer p else p
  | ClickRegenerate =>
      match imageDataUri p with
      | Some _ => regenerate_start p
      | None => p
      end
  | RegenerateSettles answer => if regenerating p then regenerate_settle answer p else p
  | RefetchRuns answer => if refetching p then query_run answer p else p
  end.

Definition run (p : Page) (events : list Event) : Page := fold_left step events p.

End Page.

End DeckImage.

(* ================================================================== *)
(** * Properties *)

(** ** lodash's [uniqBy] *)

Section UniqByFacts.
Context {A B : Type}.
Variable eqb : B -> B -> bool.
Variable f : A -> B.
Hypothesis eqb_eq : forall x y, eqb x y = true <-> x = y.

Lemma seen_iff (k : B) (seen : list B) :
  existsb (eqb k) seen = true <-> In k seen.
Proof.
  rewrite existsb_exists. split.
  - intros [y [Hy Hk]]. apply eqb_eq in Hk. now subst.
  - intros Hk. exists k. split; [assumption | now apply eqb_eq].
Qed.

Lemma baseUniq_In (seen : list B) (l : list A) (x : A) :
  In x (Lodash.baseUniq eqb f seen l) -> In x l /\ ~ In (f x) seen.
Proof.
  revert seen. induction l as [|v rest IH]; intros seen; simpl; [tauto|].
  destruct (existsb (eqb (f v)) seen) eqn:Hseen.
  - intros Hx. destruct (IH _ Hx). tauto.
  - intros [->|Hx].
    + split; [now left|]. rewrite <- seen_iff. congruence.
    + destruct (IH _ Hx) as [Hin Hnot]. split; [now right|].
      intros Hs. apply Hnot. now right.
Qed.

Lemma baseUniq_NoDup (seen : list B) (l : list A) :
  NoDup (map f (Lodash.baseUniq eqb f seen l)).
Proof.
  revert seen. induction l as [|v rest IH]; intros seen; simpl; [constructor|].
  destruct (existsb (eqb (f v)) seen); [apply IH|].
  simpl. constructor; [|apply IH].
  rewrite in_map_iff. intros [y [Hy Hin]].
  apply baseUniq_In in Hin. destruct Hin as [_ Hnot].
  apply Hnot. left. congruence.
Qed.

Lemma baseUniq_first (seen : list B) (l : list A) (x : A) :
  In x (Lodash.baseUniq eqb f seen l) ->
  exists before after,
    l = before ++ x :: after /\ forall y, In y before -> f y <> f x.
Proof.
  revert seen. induction l as [|v rest IH]; intros seen; simpl; [tauto|].
  destruct (existsb (eqb (f v)) seen) eqn:Hseen.
  - intros Hx. destruct (baseUniq_In _ _ _ Hx) as [_ Hnot].
    destruct (IH _ Hx) as (before & after & -> & Hb).
    exists (v :: before), after. split; [reflexivity|].
    intros y [<-|Hy]; [|now apply Hb].
    intros Heq. apply Hnot. rewrite <- Heq. now apply seen_iff.
  - intros [->|Hx].
    + exists [], rest. split; [reflexivity|]. intros y [].
    + destruct (baseUniq_In _ _ _ Hx) as [_ Hnot].
      destruct (IH _ Hx) as (before & after & -> & Hb).
      exists (v :: before), after. split; [reflexivity|].
      intros y [<-|Hy]; [|now apply Hb].
      intros Heq. apply Hnot. now left.
Qed.

(** Every key of the input either was seen before or is kept. *)
Lemma baseUniq_covers (seen : list B) (l : list A) (x : A) :
  In x l -> In (f x) seen \/ In (f x) (map f (Lodash.baseUniq eqb f seen l)).
Proof.
  revert seen. induction l as [|v rest IH]; intros seen; simpl; [tauto|].
  destruct (existsb (eqb (f v)) seen) eqn:Hseen.
  - intros [->|Hx]; [left; now apply seen_iff | now apply IH].
  - intros [->|Hx]; [right; now left|].
    destruct (IH (f v :: seen) Hx) as [[Heq|Hs]|Hk].
    + right. left. assumption.
    + now left.
    + right. now right.
Qed.
End UniqByFacts.

Lemma NoDup_nth_error_neq {A : Type} (l : list A) (i j : nat) (x y : A) :
  NoDup l -> nth_error l i = Some x -> nth_error l j = Some y -> i <> j -> x <> y.
Proof.
  intros Hnd Hi Hj Hij Hxy. subst y.
  apply Hij. rewrite NoDup_nth_error in Hnd. apply Hnd.
  - apply nth_error_Some. congruence.
  - congruence.
Qed.

(** ** [encodeURIComponent] *)

Lemma encode_byte_ascii (c : ascii) :
  Js.all_ascii (if Js.unreserved c then String c EmptyString else Js.percent c) = true.
Proof. destruct c as [[] [] [] [] [] [] [] []]; reflexivity. Qed.

Lemma all_ascii_app (s t : string) :
  Js.all_ascii (s ++ t) = Js.all_ascii s && Js.all_ascii t.
Proof.
  induction s as [|c s IH]; simpl; [reflexivity|].
  now rewrite IH, andb_assoc.
Qed.

Lemma encodeURIComponent_ascii (s : string) :
  Js.all_ascii (Js.encodeURIComponent s) = true.
Proof.
  induction s as [|c s IH]; [reflexivity|].
  pose proof (encode_byte_ascii c) as Hc.
  cbn [Js.encodeURIComponent]. destruct (Js.unreserved c).
  - cbn [Js.all_ascii] in *. rewrite andb_true_r in Hc. now rewrite Hc, IH.
  - now rewrite all_ascii_app, Hc, IH.
Qed.

(** The paths are ASCII text, where [toLowerCase] and [length] of the model
    are those of JavaScript. *)
Lemma deck_path_ascii (code : string) :
  Js.all_ascii (StaticPage.deck_path code) = true.
Proof.
  unfold StaticPage.deck_path. rewrite all_ascii_app, encodeURIComponent_ascii.
  reflexivity.
Qed.

(** ** [getStaticPaths] *)

Lemma not_private_iff (d : Decklyst) :
  not_private d = true <-> privacy d <> PrivacyPrivate.
Proof. unfold not_private. destruct (privacy d); simpl; split; congruence. Qed.

Lemma filter_idem {A : Type} (p : A -> bool) (l : list A) :
  filter p (filter p l) = filter p l.
Proof.
  induction l as [|x l IH]; simpl; [reflexivity|].
  destruct (p x) eqn:Hp; simpl; [rewrite Hp, IH|]; auto.
Qed.

Lemma paths_are_candidates (table : Table) (p : string) :
  In p (StaticPage.paths (StaticPage.getStaticPaths table)) ->
  In p (StaticPage.candidates (StaticPage.findMany_not_private table)).
Proof.
  simpl. unfold Lodash.uniqBy. intros Hp.
  apply (baseUniq_In String.eqb Js.toLowerCase String.eqb_eq) in Hp. tauto.
Qed.

Lemma candidate_origin (table : Table) (p : string) :
  In p (StaticPage.candidates (StaticPage.findMany_not_private table)) ->
  exists d, In d table /\ privacy d <> PrivacyPrivate
            /\ (p = StaticPage.deck_path (deckcode d)
                \/ p = StaticPage.deck_path (sharecode d)).
Proof.
  unfold StaticPage.candidates, StaticPage.findMany_not_private.
  rewrite filter_In, in_map_iff. intros [[code [<- Hcode]] _].
  apply in_flat_map in Hcode. destruct Hcode as [[dc sc] [Hsel Hcode]].
  apply in_map_iff in Hsel. destruct Hsel as [d [Hd Hin]].
  apply filter_In in Hin. destruct Hin as [Hin Hnp].
  exists d. split; [assumption|]. split; [now apply not_private_iff|].
  injection Hd as <- <-. simpl in Hcode. intuition (subst; auto).
Qed.

(** C5: private decklysts take no part in static path generation.  Dropping
    every private row from the table leaves the result of [getStaticPaths]
    unchanged, and each generated path is the path of the deckcode or of the
    sharecode of a row that is not private. *)
Theorem getStaticPaths_excludes_private (table : Table) :
  StaticPage.getStaticPaths table
  = StaticPage.getStaticPaths (filter not_private table)
  /\ forall p, In p (StaticPage.paths (StaticPage.getStaticPaths table)) ->
       exists d, In d table /\ privacy d <> PrivacyPrivate
                 /\ (p = StaticPage.deck_path (deckcode d)
                     \/ p = StaticPage.deck_path (sharecode d)).
Proof.
  split.
  - unfold StaticPage.getStaticPaths, StaticPage.findMany_not_private.
    now rewrite filter_idem.
  - intros p Hp. now apply candidate_origin, paths_are_candidates.
Qed.

(** C6: the generated paths are deduplicated case-insensitively.  Paths at
    two different positions of the result have different lower-case forms,
    and a path that is kept stands in the candidate array before which no
    candidate has the same lower-case form. *)
Theorem getStaticPaths_dedup_case_insensitive (table : Table) :
  let candidates := StaticPage.candidates (StaticPage.findMany_not_private table) in
  let paths := StaticPage.paths (StaticPage.getStaticPaths table) in
  (forall i j p q,
      nth_error paths i = Some p -> nth_error paths j = Some q -> i <> j ->
      Js.toLowerCase p <> Js.toLowerCase q)
  /\ (forall p, In p paths ->
        exists before after,
          candidates = before ++ p :: after
          /\ forall q, In q before -> Js.toLowerCase q <> Js.toLowerCase p).
Proof.
  intros candidates paths. split.
  - intros i j p q Hi Hj Hij.
    apply (NoDup_nth_error_neq (map Js.toLowerCase paths) i j).
    + apply (baseUniq_NoDup String.eqb Js.toLowerCase String.eqb_eq).
    + now rewrite nth_error_map, Hi.
    + now rewrite nth_error_map, Hj.
    + assumption.
  - intros p Hp.
    now apply (baseUniq_first String.eqb Js.toLowerCase String.eqb_eq) in Hp.
Qed.

(** ** [getStaticProps] *)

Section StaticPropsFacts.
Import StaticProps.
Variable server : Server.
Variable ctx : GetStaticPropsContext.

(** [getStaticProps] in terms of the requested code and the answer of the
    fetch. *)
Lemma getStaticProps_cases :
  match requested_code ctx with
  | None => getStaticProps server ctx = Js.Resolved (NotFound None)
  | Some code =>
      if Js.truthy code then
        match fetched server code with
        | Js.Rejected e => getStaticProps server ctx = Js.Rejected e
        | Js.Resolved None =>
            getStaticProps server ctx = Js.Resolved (NotFound (Some true))
        | Js.Resolved (Some d) =>
            exists state,
              getStaticProps server ctx
              = Js.Resolved
                  (WithProps
                     {| props_code := code;
                        trpcState :=
                          ReactQuery.dehydrate state
                            (fun _ => negb (privacy_eqb (privacy d) PrivacyPrivate));
                        decklyst :=
                          if privacy_eqb (privacy d) PrivacyPrivate then None
                          else Some d |})
        end
      else getStaticProps server ctx = Js.Resolved (NotFound None)
  end.
Proof.
  unfold getStaticProps, fetched.
  destruct (requested_code ctx) as [code|]; [|reflexivity].
  destruct (Js.truthy code); [|reflexivity]. simpl.
  destruct (fetch server _ _) as [[[d|]|e] ssg]; simpl; try reflexivity.
  now exists (cache ssg).
Qed.
End StaticPropsFacts.

Lemma dehydrate_nothing {Q : Type} (cache : list Q) :
  ReactQuery.dehydrate cache (fun _ => false) = {| ReactQuery.queries := [] |}.
Proof.
  unfold ReactQuery.dehydrate. f_equal.
  induction cache as [|q cache IH]; simpl; auto.
Qed.

Lemma truthy_iff (s : string) : Js.truthy s = true <-> s <> "".
Proof. destruct s; simpl; split; congruence. Qed.

(** C1: a private decklyst fetched by [getStaticProps] does not reach the
    props.  When the page fetches for a non-empty code and the answer is a
    decklyst whose privacy is private, the result is the props with the
    code, a dehydrated state without any query, and [null] for the decklyst:
    nothing of the record is in it. *)
Theorem getStaticProps_private_not_dehydrated
    (server : StaticProps.Server) (ctx : StaticProps.GetStaticPropsContext)
    (code : string) (d : Decklyst) :
  StaticProps.requested_code ctx = Some code ->
  code <> "" ->
  StaticProps.fetched server code = Js.Resolved (Some d) ->
  privacy d = PrivacyPrivate ->
  StaticProps.getStaticProps server ctx
  = Js.Resolved
      (StaticProps.WithProps
         {| StaticProps.props_code := code;
            StaticProps.trpcState := {| ReactQuery.queries := [] |};
            StaticProps.decklyst := None |}).
Proof.
  intros Hcode Hne Hfetch Hpriv.
  pose proof (getStaticProps_cases server ctx) as H.
  rewrite Hcode in H. apply truthy_iff in Hne. rewrite Hne, Hfetch in H.
  destruct H as [state H]. rewrite H, Hpriv. simpl.
  now rewrite dehydrate_nothing.
Qed.

Lemma getStaticProps_private_not_dehydrated_witness :
  let private_deck := mkDecklyst "MTox" "abc" PrivacyPrivate in
  let server := StaticProps.tableServer "s3cret" [private_deck] in
  StaticProps.fetched server "abc" = Js.Resolved (Some private_deck)
  /\ StaticProps.getStaticProps server (StaticProps.request "abc")
     = Js.Resolved
         (StaticProps.WithProps
            {| StaticProps.props_code := "abc";
               StaticProps.trpcState := {| ReactQuery.queries := [] |};
               StaticProps.decklyst := None |}).
Proof.
  split; [reflexivity|].
  apply (getStaticProps_private_not_dehydrated _ _ "abc"
           (mkDecklyst "MTox" "abc" PrivacyPrivate));
    [reflexivity | discriminate | reflexivity | reflexivity].
Defined.

(** C9: a known but private deck is answered with props, not with
    not-found.  When the page fetches for a non-empty code and the answer is
    a decklyst whose privacy is private, the result is not a not-found
    result: it carries props, for the requested code, whose decklyst is
    [null]. *)
Theorem getStaticProps_private_is_rendered
    (server : StaticProps.Server) (ctx : StaticProps.GetStaticPropsContext)
    (code : string) (d : Decklyst) :
  StaticProps.requested_code ctx = Some code ->
  code <> "" ->
  StaticProps.fetched server code = Js.Resolved (Some d) ->
  privacy d = PrivacyPrivate ->
  StaticProps.is_notFound (StaticProps.getStaticProps server ctx) = false
  /\ exists props,
       StaticProps.getStaticProps server ctx
       = Js.Resolved (StaticProps.WithProps props)
       /\ StaticProps.props_code props = code
       /\ StaticProps.decklyst props = None.
Proof.
  intros Hcode Hne Hfetch Hpriv.
  pose proof (getStaticProps_cases server ctx) as H.
  rewrite Hcode in H. apply truthy_iff in Hne. rewrite Hne, Hfetch in H.
  destruct H as [state H]. rewrite H, Hpriv. simpl.
  split; [reflexivity|]. eexists. split; [reflexivity|]. now split.
Qed.

Lemma getStaticProps_private_is_rendered_witness :
  let private_deck := mkDecklyst "MTox" "abc" PrivacyPrivate in
  let server := StaticProps.tableServer "s3cret" [private_deck] in
  StaticProps.is_notFound
    (StaticProps.getStaticProps server (StaticProps.request "MTox")) = false.
Proof.
  apply (getStaticProps_private_is_rendered _ _ "MTox"
           (mkDecklyst "MTox" "abc" PrivacyPrivate));
    [reflexivity | discriminate | reflexivity | reflexivity].
Defined.

(** [getStaticProps] checks no length: a deck stored under a deckcode of 206
    characters is found and served when it is requested by that code. *)
Lemma getStaticProps_overlong_code_served :
  let code := Js.repeat "A" 206 in
  let stored := mkDecklyst code "abc" PrivacyPublic in
  let server := StaticProps.tableServer "s3cret" [stored] in
  String.length code = 206
  /\ StaticProps.fetched server code = Js.Resolved (Some stored)
  /\ StaticProps.decklyst_of (StaticProps.getStaticProps server (StaticProps.request code))
     = Some stored
  /\ StaticProps.is_notFound
       (StaticProps.getStaticProps server (StaticProps.request code)) = false.
Proof. vm_compute. repeat split. Qed.

Lemma candidates_length (decklysts : list (string * string)) (p : string) :
  In p (StaticPage.candidates decklysts) -> 0 < String.length p <= 205.
Proof.
  unfold StaticPage.candidates. rewrite filter_In. intros [_ Hlen].
  unfold StaticPage.length_ok in Hlen. apply andb_true_iff in Hlen.
  destruct Hlen as [Hlo Hhi].
  apply Nat.ltb_lt in Hlo. apply Nat.leb_le in Hhi. lia.
Qed.

(** C2, amended: [getStaticProps] answers not-found exactly when the code is
    missing or empty, or the fetch resolves to no decklyst; the length of the
    code plays no part there.  The bound of 205 characters is applied by
    [getStaticPaths], to the generated path with its [/decks/] prefix: every
    path it lists has between 1 and 205 characters. *)
Theorem getStaticProps_notFound_iff
    (server : StaticProps.Server) (ctx : StaticProps.GetStaticPropsContext)
    (table : Table) :
  (StaticProps.is_notFound (StaticProps.getStaticProps server ctx) = true
   <-> match StaticProps.requested_code ctx with
       | None => True
       | Some code => code = "" \/ StaticProps.fetched server code = Js.Resolved None
       end)
  /\ (forall p, In p (StaticPage.paths (StaticPage.getStaticPaths table)) ->
        0 < String.length p <= 205).
Proof.
  split.
  - pose proof (getStaticProps_cases server ctx) as H.
    destruct (StaticProps.requested_code ctx) as [code|].
    + destruct code as [|c code]; simpl in H.
      * rewrite H. simpl. tauto.
      * destruct (StaticProps.fetched server (String c code)) as [[d|]|e].
        -- destruct H as [state H]. rewrite H. simpl.
           split; [discriminate|]. intros [|]; discriminate.
        -- rewrite H. simpl. tauto.
        -- rewrite H. simpl. split; [discriminate|]. intros [|]; discriminate.
    + rewrite H. simpl. tauto.
  - intros p Hp. eapply candidates_length, paths_are_candidates, Hp.
Qed.

(** ** The retry options *)

Lemma retry_unauthorized (count : nat) (error : Trpc.ClientError) :
  Trpc.error_code error = Some "UNAUTHORIZED" -> DeckPage.retry count error = false.
Proof. unfold DeckPage.retry. now intros ->. Qed.

Lemma retry_other (count : nat) (error : Trpc.ClientError) :
  Trpc.error_code error <> Some "UNAUTHORIZED" ->
  DeckPage.retry count error = (count <? 3).
Proof.
  unfold DeckPage.retry. intros Hother.
  destruct (Trpc.error_code error) as [c|]; [|reflexivity].
  destruct (String.eqb_spec c "UNAUTHORIZED") as [->|]; [congruence | reflexivity].
Qed.

Section RetryerFacts.
Context {E A : Type}.
Variable retry : ReactQuery.RetryOption E.
Variable retryDelay : Z -> Z.
Variable fn : nat -> Js.Outcome E A.

(** While every call fails and is to be retried, the retryer goes on. *)
Lemma run_retries (n budget k : nat) (slept : list Z) :
  n <= budget ->
  (forall i, k <= i < k + n ->
     exists e, fn i = Js.Rejected e /\ ReactQuery.shouldRetry retry i e = true) ->
  ReactQuery.run retry retryDelay fn budget k slept
  = ReactQuery.run retry retryDelay fn (budget - n) (k + n)
      (slept ++ map (fun i => retryDelay (Z.of_nat i)) (seq k n)).
Proof.
  revert budget k slept. induction n as [|n IH]; intros budget k slept Hle Hfail.
  - simpl. now rewrite Nat.sub_0_r, Nat.add_0_r, app_nil_r.
  - destruct budget as [|budget]; [lia|].
    destruct (Hfail k ltac:(lia)) as [e [Hk Hretry]].
    simpl ReactQuery.run at 1. rewrite Hk, Hretry.
    rewrite IH; [|lia|intros i Hi; apply Hfail; lia].
    simpl. rewrite <- app_assoc. simpl.
    now replace (k + S n) with (S k + n) by lia.
Qed.
End RetryerFacts.

(** C3: the retry predicate of the page's [decklyst.get] query.  It is false
    for an error whose code is UNAUTHORIZED, whatever the count; for any
    other error it is true exactly while the failure count is below three.
    In the retryer this gives three retries: a query that keeps failing with
    other errors is given up at the fourth failure, after three delays, and
    one that fails with UNAUTHORIZED is given up at once. *)
Theorem retry_unauthorized_never_others_thrice :
  (forall count error,
      Trpc.error_code error = Some "UNAUTHORIZED" ->
      DeckPage.retry count error = false)
  /\ (forall count error,
        Trpc.error_code error <> Some "UNAUTHORIZED" ->
        (DeckPage.retry count error = true <-> count < 3))
  /\ (forall (A : Type) retryDelay (fn : nat -> Async A) budget,
        3 <= budget ->
        (forall k, k <= 3 ->
           exists e, fn k = Js.Rejected e
                     /\ Trpc.error_code e <> Some "UNAUTHORIZED") ->
        exists e,
          fn 3 = Js.Rejected e
          /\ ReactQuery.run DeckPage.retryOption retryDelay fn budget 0 []
             = ReactQuery.GaveUp e 3 [retryDelay 0%Z; retryDelay 1%Z; retryDelay 2%Z])
  /\ (forall (A : Type) retryDelay (fn : nat -> Async A) budget e,
        fn 0 = Js.Rejected e ->
        Trpc.error_code e = Some "UNAUTHORIZED" ->
        ReactQuery.run DeckPage.retryOption retryDelay fn budget 0 []
        = ReactQuery.GaveUp e 0 []).
Proof.
  split; [exact retry_unauthorized|].
  split; [intros count error H; rewrite (retry_other _ _ H); apply Nat.ltb_lt|].
  split.
  - intros A retryDelay fn budget Hbudget Hfail.
    destruct (Hfail 3 (le_n 3)) as [e [H3 He]]. exists e. split; [assumption|].
    rewrite (run_retries DeckPage.retryOption retryDelay fn 3); [|lia|].
    2:{ intros i Hi. destruct (Hfail i ltac:(lia)) as [ei [Hfi Hei]].
        exists ei. split; [assumption|]. simpl.
        rewrite (retry_other _ _ Hei). apply Nat.ltb_lt. lia. }
    simpl. destruct (budget - 3); simpl; rewrite H3; simpl;
      rewrite (retry_other _ _ He); reflexivity.
  - intros A retryDelay fn budget e H0 He.
    destruct budget; simpl; rewrite H0; simpl;
      rewrite (retry_unauthorized _ _ He); reflexivity.
Qed.

Lemma retryDelay_flat (n : Z) : (n <= 5)%Z -> ServerPage.retryDelay n = 1000%Z.
Proof.
  intros Hn. unfold ServerPage.retryDelay.
  now replace (Z.max 0 (n - 5)) with 0%Z by lia.
Qed.

Lemma retryDelay_doubles (n : Z) :
  (5 <= n)%Z -> ServerPage.retryDelay (n + 1) = (2 * ServerPage.retryDelay n)%Z.
Proof.
  intros Hn. unfold ServerPage.retryDelay.
  replace (Z.max 0 (n + 1 - 5)) with (Z.succ (n - 5)) by lia.
  replace (Z.max 0 (n - 5)) with (n - 5)%Z by lia.
  rewrite Z.pow_succ_r by lia. lia.
Qed.

(** The deck-image query has no maximum attempt count: there is no failure
    count from which on a failure is not retried. *)
Lemma deck_image_retry_not_capped :
  ~ exists cap : nat,
      forall failureCount error,
        cap <= failureCount ->
        ReactQuery.shouldRetry ServerPage.retryOption failureCount error = false.
Proof.
  intros [cap Hcap].
  specialize (Hcap cap (Trpc.mkClientError "" None) (le_n cap)).
  discriminate Hcap.
Qed.

(** C4, amended: the deck-image query retries with exponential backoff and
    without a cap.  The delay before retry [n] is [1000 * 2^max(0, n-5)]
    milliseconds: 1000 up to the fifth, doubling from there on.  Every
    failure is retried, whatever the failure count, so against a fetch that
    fails every time the retryer is still retrying after any number of
    retries, having slept the delays of all of them. *)
Theorem deck_image_retry_backoff_unbounded :
  (forall n, (0 <= n)%Z ->
     ServerPage.retryDelay n = (1000 * 2 ^ Z.max 0 (n - 5))%Z
     /\ (n <= 5 -> ServerPage.retryDelay n = 1000)%Z
     /\ (5 <= n -> ServerPage.retryDelay (n + 1) = 2 * ServerPage.retryDelay n)%Z)
  /\ (forall failureCount error,
        ReactQuery.shouldRetry ServerPage.retryOption failureCount error = true)
  /\ (forall (A : Type) (fn : nat -> Async A) budget,
        (forall k, exists e, fn k = Js.Rejected e) ->
        ReactQuery.run ServerPage.retryOption ServerPage.retryDelay fn budget 0 []
        = ReactQuery.StillRetrying budget
            (map (fun k => ServerPage.retryDelay (Z.of_nat k)) (seq 0 budget))).
Proof.
  split; [|split].
  - intros n Hn. split; [reflexivity|].
    split; [apply retryDelay_flat | apply retryDelay_doubles].
  - reflexivity.
  - intros A fn budget Hfail.
    rewrite (run_retries ServerPage.retryOption ServerPage.retryDelay fn budget);
      [|lia|intros i _; destruct (Hfail i) as [e He]; exists e; now split].
    rewrite Nat.sub_diag. simpl.
    destruct (Hfail budget) as [e He]. now rewrite He.
Qed.

(** ** [getServerSideProps] *)

Section ServerPageFacts.
Import ServerPage.
Variable B : Backend.

(** The lookup issues [getDeckinfo] or [ensureDeckinfo] at most, never
    [registerView]. *)
Lemma resolve_registers_nothing (query : Query) (w w' : World B)
    (answer : Async (option string * option string)) :
  resolve B query w = (answer, w') ->
  forall deckcode ip,
    In (MutationRegisterView deckcode ip) (issued w') ->
    In (MutationRegisterView deckcode ip) (issued w).
Proof.
  unfold resolve, bind, ret, client_query_getDeckinfo,
    client_mutation_ensureDeckinfo, call.
  intros Hres deckcode ip.
  destruct (query_code query) as [c|]; [destruct (Js.truthy c)|].
  - destruct (snapshot_of B query).
    + destruct (getDeckinfo B c (remote w)) as [[info|e] r];
        injection Hres as _ <-; simpl; rewrite in_app_iff;
        intros [H|[H|[]]]; auto; discriminate H.
    + destruct (ensureDeckinfo B c (remote w)) as [[info|e] r];
        injection Hres as _ <-; simpl; rewrite in_app_iff;
        intros [H|[H|[]]]; auto; discriminate H.
  - injection Hres as _ <-. auto.
  - injection Hres as _ <-. auto.
Qed.

(** [getServerSideProps] after a lookup that resolved. *)
Lemma getServerSideProps_after_lookup (req : Request B) (query : Query)
    (w w1 : World B) (deckcode sharecode : option string) :
  resolve B query w = (Js.Resolved (deckcode, sharecode), w1) ->
  getServerSideProps B req query w
  = if negb (validateDeckcode B deckcode) then (Js.Resolved NotFound, w1)
    else if List.length (cards B (createDeck B deckcode)) =? 0
         then (Js.Resolved NotFound, w1)
         else
           bind B
             (if negb (snapshot_of B query)
              then client_mutation_registerView B deckcode (getIpAddress B req)
              else ret B tt)
             (fun _ =>
                ret B (WithProps
                         {| deck := createDeck B deckcode;
                            meta := {| meta_sharecode := sharecode |};
                            isSnapshot := snapshot_of B query |}))
             w1.
Proof.
  intros Hres. unfold getServerSideProps. unfold bind at 1. rewrite Hres.
  destruct (negb (validateDeckcode B deckcode)); [reflexivity|].
  destruct (List.length (cards B (createDeck B deckcode)) =? 0); reflexivity.
Qed.

Lemma getServerSideProps_lookup_rejected (req : Request B) (query : Query)
    (w w1 : World B) (e : Trpc.ClientError) :
  resolve B query w = (Js.Rejected e, w1) ->
  getServerSideProps B req query w = (Js.Rejected e, w1).
Proof.
  intros Hres. unfold getServerSideProps. unfold bind at 1. now rewrite Hres.
Qed.
End ServerPageFacts.

Lemma length_eqb_0 {A : Type} (l : list A) : (List.length l =? 0) = true <-> l = [].
Proof. rewrite Nat.eqb_eq. apply length_zero_iff_nil. Qed.

(** C7: a deck without cards is not found.  When the lookup of
    [getServerSideProps] has resolved, the deckcode it leaves passes
    [validateDeckcode] and the deck created from it has no cards, the result
    is not-found, and no call is issued after the lookup. *)
Theorem getServerSideProps_no_cards_notFound
    (B : ServerPage.Backend) (req : ServerPage.Request B)
    (query : ServerPage.Query) (r : ServerPage.Remote B)
    (deckcode sharecode : option string) (w : ServerPage.World B) :
  ServerPage.resolve B query (ServerPage.mkWorld r [])
  = (Js.Resolved (deckcode, sharecode), w) ->
  ServerPage.validateDeckcode B deckcode = true ->
  ServerPage.cards B (ServerPage.createDeck B deckcode) = [] ->
  ServerPage.serve B req query r = (Js.Resolved ServerPage.NotFound, w).
Proof.
  intros Hres Hvalid Hcards. unfold ServerPage.serve.
  rewrite (getServerSideProps_after_lookup B req query _ _ _ _ Hres).
  rewrite Hvalid, Hcards. reflexivity.
Qed.

Lemma getServerSideProps_no_cards_notFound_witness :
  ServerPage.serve ServerPage.digitBackend "127.0.0.1"
    (ServerPage.mkQuery (Some "abc") None) 0
  = (Js.Resolved ServerPage.NotFound,
     ServerPage.mkWorld (B := ServerPage.digitBackend) 0
       [ServerPage.MutationEnsureDeckinfo "abc"]).
Proof.
  apply (getServerSideProps_no_cards_notFound ServerPage.digitBackend
           "127.0.0.1" (ServerPage.mkQuery (Some "abc") None) 0 (Some "abc") None);
    reflexivity.
Defined.

(** C8: [registerView] is issued exactly for a view that is not a snapshot
    of a valid deck with cards.  Serving a request issues
    [registerView(deckcode, ip)] if and only if the snapshot flag is off, the
    lookup has resolved and left [deckcode], [validateDeckcode] accepts it,
    the deck created from it has at least one card, and [ip] is the address
    of the request.  With the snapshot flag on no [registerView] is issued. *)
Theorem registerView_iff_counted_view
    (B : ServerPage.Backend) (req : ServerPage.Request B)
    (query : ServerPage.Query) (r : ServerPage.Remote B) :
  let calls := ServerPage.issued (snd (ServerPage.serve B req query r)) in
  (forall deckcode ip,
      In (ServerPage.MutationRegisterView deckcode ip) calls
      <-> ServerPage.snapshot_of B query = false
          /\ ip = ServerPage.getIpAddress B req
          /\ ServerPage.validateDeckcode B deckcode = true
          /\ ServerPage.cards B (ServerPage.createDeck B deckcode) <> []
          /\ exists sharecode w,
               ServerPage.resolve B query (ServerPage.mkWorld r [])
               = (Js.Resolved (deckcode, sharecode), w))
  /\ (ServerPage.snapshot_of B query = true ->
      existsb ServerPage.is_registerView calls = false).
Proof.
  intros calls.
  assert (Hiff : forall deckcode ip,
      In (ServerPage.MutationRegisterView deckcode ip) calls
      <-> ServerPage.snapshot_of B query = false
          /\ ip = ServerPage.getIpAddress B req
          /\ ServerPage.validateDeckcode B deckcode = true
          /\ ServerPage.cards B (ServerPage.createDeck B deckcode) <> []
          /\ exists sharecode w,
               ServerPage.resolve B query (ServerPage.mkWorld r [])
               = (Js.Resolved (deckcode, sharecode), w)).
  { intros deckcode ip. subst calls. unfold ServerPage.serve.
    destruct (ServerPage.resolve B query (ServerPage.mkWorld r []))
      as [[[dc sc]|e] w] eqn:Hres.
    - pose proof (resolve_registers_nothing B query _ _ _ Hres) as Hnone.
      rewrite (getServerSideProps_after_lookup B req query _ _ _ _ Hres).
      destruct (ServerPage.validateDeckcode B dc) eqn:Hvalid; simpl.
      + destruct (List.length (ServerPage.cards B (ServerPage.createDeck B dc)) =? 0)
          eqn:Hlen; simpl.
        * apply length_eqb_0 in Hlen. split.
          -- intros Hin. destruct (Hnone _ _ Hin).
          -- intros (_ & _ & _ & Hcards & sc' & w' & Heq).
             injection Heq as <- _ _. contradiction.
        * assert (Hcards : ServerPage.cards B (ServerPage.createDeck B dc) <> []).
          { intros Hnil. apply length_eqb_0 in Hnil. congruence. }
          destruct (ServerPage.snapshot_of B query) eqn:Hsnap; simpl.
          -- split.
             ++ intros Hin. destruct (Hnone _ _ Hin).
             ++ intros [Hfalse _]. discriminate.
          -- unfold ServerPage.bind, ServerPage.client_mutation_registerView,
               ServerPage.call, ServerPage.ret.
             destruct (ServerPage.registerView B dc (ServerPage.getIpAddress B req)
                         (ServerPage.remote w)) as [[[]|e] r'];
               simpl; rewrite in_app_iff; simpl.
             ++ split.
                ** intros [Hin|[Heq|[]]]; [destruct (Hnone _ _ Hin)|].
                   injection Heq as <- <-. repeat split; auto. now exists sc, w.
                ** intros (_ & -> & _ & _ & sc' & w' & Heq).
                   injection Heq as <- _ _. right. now left.
             ++ split.
                ** intros [Hin|[Heq|[]]]; [destruct (Hnone _ _ Hin)|].
                   injection Heq as <- <-. repeat split; auto. now exists sc, w.
                ** intros (_ & -> & _ & _ & sc' & w' & Heq).
                   injection Heq as <- _ _. right. now left.
      + split.
        * intros Hin. destruct (Hnone _ _ Hin).
        * intros (_ & _ & Hv & _ & sc' & w' & Heq).
          injection Heq as <- _ _. congruence.
    - pose proof (resolve_registers_nothing B query _ _ _ Hres) as Hnone.
      rewrite (getServerSideProps_lookup_rejected B req query _ _ _ Hres). simpl.
      split.
      + intros Hin. destruct (Hnone _ _ Hin).
      + intros (_ & _ & _ & _ & sc' & w' & Heq). discriminate. }
  split; [exact Hiff|].
  intros Hsnap. destruct (existsb ServerPage.is_registerView calls) eqn:Hex;
    [|reflexivity].
  apply existsb_exists in Hex. destruct Hex as [[c|c|dc ip] [Hin Hc]];
    try discriminate.
  apply Hiff in Hin. destruct Hin as [Hfalse _]. congruence.
Qed.

(** ** The save-deck dialog *)

Section DialogFacts.
Import SaveDeckDialog.

Lemma same_deps_eq (a b : nat * bool) : same_deps a b = true <-> a = b.
Proof.
  destruct a as [n x], b as [m y]. unfold same_deps. simpl.
  rewrite andb_true_iff, Nat.eqb_eq, Bool.eqb_true_iff.
  split; [intros [-> ->]; reflexivity | intros H; injection H; auto].
Qed.

(** The closure a render gets back from [useCallback] is one created with
    the values of that very render. *)
Lemma useCallback_current (cell : option Memo) (r : Render) :
  memo_ok cell ->
  kept (useCallback cell r) = r /\ memo_ok (Some (useCallback cell r)).
Proof.
  unfold useCallback. destruct cell as [m|]; simpl; [|auto].
  intros Hok. destruct (same_deps (deps m) (onClose r, isSaving r)) eqn:Hdeps;
    simpl; [|auto].
  apply same_deps_eq in Hdeps. split; [|assumption].
  rewrite Hok in Hdeps. destruct (kept m), r. simpl in Hdeps. congruence.
Qed.

Lemma rendered_ok (renders : list Render) (cell : option Memo) :
  memo_ok cell -> memo_ok (rendered cell renders).
Proof.
  revert cell. induction renders as [|r rest IH]; intros cell Hok; simpl; [assumption|].
  apply IH. now apply useCallback_current.
Qed.

Lemma rendered_snoc (renders : list Render) (r : Render) (cell : option Memo) :
  rendered cell (renders ++ [r]) = Some (useCallback (rendered cell renders) r).
Proof.
  revert cell. induction renders as [|r0 rest IH]; intros cell; simpl; [reflexivity|].
  apply IH.
Qed.

Lemma handleClose_latest (renders : list Render) (r : Render) :
  handleClose (renders ++ [r]) = handleClose_body r.
Proof.
  unfold handleClose. rewrite rendered_snoc.
  destruct (useCallback_current (rendered None renders) r) as [-> _];
    [apply rendered_ok; exact I | reflexivity].
Qed.
End DialogFacts.

(** C10: while the upsert is in flight the dialog does not close.  Whatever
    renders came before, when [isSaving] is true in the latest render,
    invoking its [handleClose] calls nothing, [onClose] in particular; and
    when [handleClose] does call [onClose], [isSaving] is false. *)
Theorem handleClose_while_saving
    (renders : list SaveDeckDialog.Render) (r : SaveDeckDialog.Render) :
  SaveDeckDialog.isSaving r = true ->
  SaveDeckDialog.handleClose (renders ++ [r]) = []
  /\ forall id, ~ In (SaveDeckDialog.CallOnClose id)
                     (SaveDeckDialog.handleClose (renders ++ [r])).
Proof.
  intros Hsaving. rewrite handleClose_latest.
  unfold SaveDeckDialog.handleClose_body. rewrite Hsaving.
  split; [reflexivity | intros id []].
Qed.

Lemma handleClose_while_saving_witness :
  SaveDeckDialog.handleClose
    ([SaveDeckDialog.mkRender 7 false] ++ [SaveDeckDialog.mkRender 7 true]) = [].
Proof.
  apply (handleClose_while_saving [SaveDeckDialog.mkRender 7 false]
           (SaveDeckDialog.mkRender 7 true)).
  reflexivity.
Defined.

(** When no save is in flight, [handleClose] calls the [onClose] of the
    latest render, once. *)
Lemma handleClose_when_idle
    (renders : list SaveDeckDialog.Render) (r : SaveDeckDialog.Render) :
  SaveDeckDialog.isSaving r = false ->
  SaveDeckDialog.handleClose (renders ++ [r])
  = [SaveDeckDialog.CallOnClose (SaveDeckDialog.onClose r)].
Proof.
  intros Hidle. rewrite handleClose_latest.
  unfold SaveDeckDialog.handleClose_body. now rewrite Hidle.
Qed.

(** ** The pages and the dialog on concrete inputs *)

Example paths_demo :
  StaticPage.paths
    (StaticPage.getStaticPaths
       [ mkDecklyst "MTox" "abc" PrivacyPublic;
         mkDecklyst "MTox" "ABC" PrivacyUnlisted;
         mkDecklyst "secret deck" "zzz" PrivacyPrivate;
         mkDecklyst "a b" "Abc" PrivacyPublic ])
  = ["/decks/MTox"; "/decks/abc"; "/decks/a%20b"].
Proof. vm_compute. reflexivity. Qed.

Example overlong_path_not_listed :
  StaticPage.paths
    (StaticPage.getStaticPaths [mkDecklyst (Js.repeat "A" 199) "abc" PrivacyPublic])
  = ["/decks/abc"].
Proof. vm_compute. reflexivity. Qed.

Example retry_demo :
  let unauthorized := Trpc.mkClientError "no" (Some (Trpc.mkErrorData "UNAUTHORIZED")) in
  let timeout := Trpc.mkClientError "late" (Some (Trpc.mkErrorData "TIMEOUT")) in
  let network := Trpc.mkClientError "fetch failed" None in
  map (fun count => DeckPage.retry count unauthorized) [0; 1; 2; 3] = [false; false; false; false]
  /\ map (fun count => DeckPage.retry count timeout) [0; 1; 2; 3] = [true; true; true; false]
  /\ map (fun count => DeckPage.retry count network) [0; 1; 2; 3] = [true; true; true; false].
Proof. repeat split. Qed.

Example retryDelay_demo :
  map ServerPage.retryDelay [0; 1; 5; 6; 7; 10]%Z
  = [1000; 1000; 1000; 2000; 4000; 32000]%Z.
Proof. reflexivity. Qed.

Example view_registered_demo :
  ServerPage.serve ServerPage.digitBackend "127.0.0.1"
    (ServerPage.mkQuery (Some "a1") None) 0
  = (Js.Resolved
       (ServerPage.WithProps
          (ServerPage.mkProps ServerPage.digitBackend "a1"
             (ServerPage.mkMeta None) false)),
     ServerPage.mkWorld (B := ServerPage.digitBackend) 1
       [ServerPage.MutationEnsureDeckinfo "a1";
        ServerPage.MutationRegisterView (Some "a1") "127.0.0.1"]).
Proof. reflexivity. Qed.

Example snapshot_view_demo :
  ServerPage.serve ServerPage.digitBackend "127.0.0.1"
    (ServerPage.mkQuery (Some "a1") (Some "1")) 0
  = (Js.Resolved
       (ServerPage.WithProps
          (ServerPage.mkProps ServerPage.digitBackend "a1"
             (ServerPage.mkMeta None) true)),
     ServerPage.mkWorld (B := ServerPage.digitBackend) 0
       [ServerPage.QueryGetDeckinfo "a1"]).
Proof. reflexivity. Qed.

(* ================================================================== *)
(** * Further properties *)

(** ** The paths of [getStaticPaths] *)

Lemma toLowerCase_app (s t : string) :
  Js.toLowerCase (s ++ t) = (Js.toLowerCase s ++ Js.toLowerCase t)%string.
Proof. induction s as [|c s IH]; simpl; [reflexivity | now rewrite IH]. Qed.

Lemma encode_cons (c : ascii) (s : string) :
  Js.encodeURIComponent (String c s)
  = if Js.unreserved c then String c (Js.encodeURIComponent s)
    else String "%"
           (String (Js.hex_digit (nat_of_ascii c / 16))
              (String (Js.hex_digit (nat_of_ascii c mod 16))
                 (Js.encodeURIComponent s))).
Proof. reflexivity. Qed.

Lemma escape_well_formed (c : ascii) :
  Js.unreserved c = false ->
  Uri.is_hex (Js.hex_digit (nat_of_ascii c / 16)) = true
  /\ Uri.is_hex (Js.hex_digit (nat_of_ascii c mod 16)) = true.
Proof. destruct c as [[] [] [] [] [] [] [] []]; vm_compute; intuition congruence. Qed.

Lemma unreserved_not_percent (c : ascii) :
  Js.unreserved c = true -> Ascii.eqb c "%" = false.
Proof. destruct c as [[] [] [] [] [] [] [] []]; vm_compute; congruence. Qed.

Lemma encodeURIComponent_well_escaped (s : string) :
  Uri.well_escaped (Js.encodeURIComponent s) = true.
Proof.
  induction s as [|c s IH]; [reflexivity|].
  rewrite encode_cons. destruct (Js.unreserved c) eqn:Hc.
  - cbn [Uri.well_escaped]. now rewrite (unreserved_not_percent c Hc), Hc, IH.
  - destruct (escape_well_formed c Hc) as [Hh Hl].
    cbn [Uri.well_escaped]. cbn [Ascii.eqb Bool.eqb]. now rewrite Hh, Hl, IH.
Qed.

Lemma encodeURIComponent_length (s : string) :
  String.length s <= String.length (Js.encodeURIComponent s).
Proof.
  induction s as [|c s IH]; [apply le_n|].
  rewrite encode_cons. destruct (Js.unreserved c); simpl; lia.
Qed.

Lemma deck_path_length (code : string) :
  String.length (StaticPage.deck_path code)
  = 7 + String.length (Js.encodeURIComponent code).
Proof. reflexivity. Qed.

(** X1: every path listed by [getStaticPaths] is [/decks/] followed by the
    encoding of the deckcode or sharecode of a row that is not private, and
    that encoding is made of unreserved characters and [%XX] escapes only. *)
Theorem getStaticPaths_paths_well_escaped (table : Table) :
  forall p, In p (StaticPage.paths (StaticPage.getStaticPaths table)) ->
    exists d code,
      In d table /\ privacy d <> PrivacyPrivate
      /\ (code = deckcode d \/ code = sharecode d)
      /\ p = ("/decks/" ++ Js.encodeURIComponent code)%string
      /\ Uri.well_escaped (Js.encodeURIComponent code) = true.
Proof.
  intros p Hp. apply paths_are_candidates, candidate_origin in Hp.
  destruct Hp as (d & Hd & Hpriv & [->| ->]).
  - exists d, (deckcode d). repeat split; auto using encodeURIComponent_well_escaped.
  - exists d, (sharecode d). repeat split; auto using encodeURIComponent_well_escaped.
Qed.

Lemma getStaticPaths_paths_well_escaped_witness :
  exists d code,
    In d [mkDecklyst "a b" "abc" PrivacyPublic]
    /\ privacy d <> PrivacyPrivate
    /\ (code = deckcode d \/ code = sharecode d)
    /\ "/decks/a%20b" = ("/decks/" ++ Js.encodeURIComponent code)%string
    /\ Uri.well_escaped (Js.encodeURIComponent code) = true.
Proof.
  apply (getStaticPaths_paths_well_escaped [mkDecklyst "a b" "abc" PrivacyPublic]).
  simpl. auto.
Defined.

Lemma eligible_candidate (table : Table) (d : Decklyst) (code : string) :
  In d table ->
  privacy d <> PrivacyPrivate ->
  code = deckcode d \/ code = sharecode d ->
  String.length (StaticPage.deck_path code) <= 205 ->
  In (StaticPage.deck_path code)
     (StaticPage.candidates (StaticPage.findMany_not_private table)).
Proof.
  intros Hd Hpriv Hcode Hlen.
  unfold StaticPage.candidates, StaticPage.findMany_not_private.
  apply filter_In. split.
  - apply in_map, in_flat_map. exists (deckcode d, sharecode d). split.
    + apply (in_map (fun d => (deckcode d, sharecode d))).
      apply filter_In. split; [assumption | now apply not_private_iff].
    + simpl. destruct Hcode as [->| ->]; auto.
  - unfold StaticPage.length_ok. rewrite deck_path_length in *.
    apply andb_true_iff. split; [apply Nat.ltb_lt; lia | apply Nat.leb_le; lia].
Qed.

Lemma candidate_represented (table : Table) (c : string) :
  In c (StaticPage.candidates (StaticPage.findMany_not_private table)) ->
  exists p,
    In p (StaticPage.paths (StaticPage.getStaticPaths table))
    /\ Js.toLowerCase p = Js.toLowerCase c.
Proof.
  intros Hcand.
  destruct (baseUniq_covers String.eqb Js.toLowerCase String.eqb_eq [] _ _ Hcand)
    as [[]|Hin].
  apply in_map_iff in Hin. destruct Hin as [p [Hlow Hp]].
  exists p. split; assumption.
Qed.

(** X2: no eligible code is lost.  For every row that is not private, each
    of its two codes whose path has at most 205 characters is represented in
    the result: some listed path has the same lower-case form. *)
Theorem getStaticPaths_covers_eligible (table : Table) (d : Decklyst) (code : string) :
  In d table ->
  privacy d <> PrivacyPrivate ->
  code = deckcode d \/ code = sharecode d ->
  String.length (StaticPage.deck_path code) <= 205 ->
  exists p,
    In p (StaticPage.paths (StaticPage.getStaticPaths table))
    /\ Js.toLowerCase p = Js.toLowerCase (StaticPage.deck_path code).
Proof.
  intros Hd Hpriv Hcode Hlen.
  now apply candidate_represented, (eligible_candidate table d).
Qed.

Lemma getStaticPaths_covers_eligible_witness :
  exists p,
    In p (StaticPage.paths
            (StaticPage.getStaticPaths
               [mkDecklyst "MTox" "abc" PrivacyPublic;
                mkDecklyst "MTox" "ABC" PrivacyUnlisted]))
    /\ Js.toLowerCase p = Js.toLowerCase (StaticPage.deck_path "ABC").
Proof.
  apply (getStaticPaths_covers_eligible _ (mkDecklyst "MTox" "ABC" PrivacyUnlisted) "ABC").
  - simpl. auto.
  - discriminate.
  - right. reflexivity.
  - apply Nat.leb_le. reflexivity.
Defined.

Lemma lower_unreserved (c : ascii) :
  Js.unreserved (Js.lower_ascii c) = Js.unreserved c.
Proof. destruct c as [[] [] [] [] [] [] [] []]; reflexivity. Qed.

Lemma lower_reserved (c : ascii) :
  Js.unreserved c = false -> Js.lower_ascii c = c.
Proof. destruct c as [[] [] [] [] [] [] [] []]; vm_compute; congruence. Qed.

Lemma lower_unreserved_not_percent (c : ascii) :
  Js.unreserved c = true -> Ascii.eqb (Js.lower_ascii c) "%" = false.
Proof. destruct c as [[] [] [] [] [] [] [] []]; vm_compute; congruence. Qed.

(** The two digits of an escape, in either case, give the byte back. *)
Lemma escape_decodes (c : ascii) :
  Uri.byte_of_hex
    (Js.lower_ascii (Js.hex_digit (nat_of_ascii c / 16)))
    (Js.lower_ascii (Js.hex_digit (nat_of_ascii c mod 16))) = c.
Proof. destruct c as [[] [] [] [] [] [] [] []]; reflexivity. Qed.

Lemma lower_encode_cons (c : ascii) (s : string) :
  Js.toLowerCase (Js.encodeURIComponent (String c s))
  = if Js.unreserved c
    then String (Js.lower_ascii c) (Js.toLowerCase (Js.encodeURIComponent s))
    else String "%"
           (String (Js.lower_ascii (Js.hex_digit (nat_of_ascii c / 16)))
              (String (Js.lower_ascii (Js.hex_digit (nat_of_ascii c mod 16)))
                 (Js.toLowerCase (Js.encodeURIComponent s)))).
Proof. rewrite encode_cons. destruct (Js.unreserved c); reflexivity. Qed.

Lemma lower_encode_inj (a b : string) :
  Js.toLowerCase (Js.encodeURIComponent a) = Js.toLowerCase (Js.encodeURIComponent b) ->
  Js.toLowerCase a = Js.toLowerCase b.
Proof.
  revert b. induction a as [|c a IH]; intros [|c' b].
  - reflexivity.
  - rewrite lower_encode_cons. destruct (Js.unreserved c'); discriminate.
  - rewrite lower_encode_cons. destruct (Js.unreserved c); discriminate.
  - rewrite !lower_encode_cons.
    pose proof (escape_decodes c) as Ec. pose proof (escape_decodes c') as Ec'.
    remember (Js.lower_ascii (Js.hex_digit (nat_of_ascii c / 16))) as hi.
    remember (Js.lower_ascii (Js.hex_digit (nat_of_ascii c mod 16))) as lo.
    remember (Js.lower_ascii (Js.hex_digit (nat_of_ascii c' / 16))) as hi'.
    remember (Js.lower_ascii (Js.hex_digit (nat_of_ascii c' mod 16))) as lo'.
    destruct (Js.unreserved c) eqn:Hc, (Js.unreserved c') eqn:Hc'; intros H.
    + injection H as Hhead Htail. simpl. now rewrite Hhead, (IH b Htail).
    + injection H as Hhead _.
      pose proof (lower_unreserved_not_percent c Hc) as Hno.
      rewrite Hhead in Hno. discriminate Hno.
    + injection H as Hhead _.
      pose proof (lower_unreserved_not_percent c' Hc') as Hno.
      rewrite <- Hhead in Hno. discriminate Hno.
    + injection H as Hhi Hlo Htail.
      assert (c = c') as <- by congruence.
      simpl. now rewrite (IH b Htail).
Qed.

Lemma lower_encode_compat (a b : string) :
  Js.toLowerCase a = Js.toLowerCase b ->
  Js.toLowerCase (Js.encodeURIComponent a) = Js.toLowerCase (Js.encodeURIComponent b).
Proof.
  revert b. induction a as [|c a IH]; intros [|c' b]; simpl; try discriminate;
    [reflexivity|].
  intros H. injection H as Hhead Htail.
  change (Js.toLowerCase (Js.encodeURIComponent (String c a))
          = Js.toLowerCase (Js.encodeURIComponent (String c' b))).
  rewrite !lower_encode_cons, (IH b Htail).
  assert (Hsame : Js.unreserved c = Js.unreserved c').
  { now rewrite <- (lower_unreserved c), Hhead, lower_unreserved. }
  rewrite <- Hsame. destruct (Js.unreserved c) eqn:Hc.
  - now rewrite Hhead.
  - symmetry in Hsame.
    assert (c = c') as <-; [|reflexivity].
    now rewrite <- (lower_reserved c Hc), Hhead, (lower_reserved c' Hsame).
Qed.

Lemma append_inv_head (s t u : string) : (s ++ t = s ++ u)%string -> t = u.
Proof.
  induction s as [|c s IH]; simpl; [auto|].
  intros H. injection H as H. auto.
Qed.

Lemma deck_path_key_iff (a b : string) :
  Js.toLowerCase (StaticPage.deck_path a) = Js.toLowerCase (StaticPage.deck_path b)
  <-> Js.toLowerCase a = Js.toLowerCase b.
Proof.
  unfold StaticPage.deck_path. rewrite !toLowerCase_app. split.
  - intros H. now apply lower_encode_inj, (append_inv_head _ _ _ H).
  - intros H. now rewrite (lower_encode_compat a b H).
Qed.

(** X3: the key of the deduplication identifies exactly the codes that are
    equal up to the case of the letters A-Z.  The lower-case forms of the
    paths of two codes coincide if and only if the codes, with their ASCII
    capitals lowered, coincide; hence two codes listed at different
    positions of the result differ by more than letter case. *)
Theorem getStaticPaths_key_is_case_folding :
  (forall a b,
      Js.toLowerCase (StaticPage.deck_path a) = Js.toLowerCase (StaticPage.deck_path b)
      <-> Js.toLowerCase a = Js.toLowerCase b)
  /\ (forall table i j a b,
        nth_error (StaticPage.paths (StaticPage.getStaticPaths table)) i
        = Some (StaticPage.deck_path a) ->
        nth_error (StaticPage.paths (StaticPage.getStaticPaths table)) j
        = Some (StaticPage.deck_path b) ->
        i <> j ->
        Js.toLowerCase a <> Js.toLowerCase b).
Proof.
  split; [exact deck_path_key_iff|].
  intros table i j a b Hi Hj Hij Hab.
  apply (proj2 (deck_path_key_iff _ _)) in Hab. revert Hab.
  apply (NoDup_nth_error_neq
           (map Js.toLowerCase (StaticPage.paths (StaticPage.getStaticPaths table))) i j).
  - apply (baseUniq_NoDup String.eqb Js.toLowerCase String.eqb_eq).
  - now rewrite nth_error_map, Hi.
  - now rewrite nth_error_map, Hj.
  - assumption.
Qed.

(** X4: a listed code is short.  A code whose path is listed encodes to at
    most 198 characters, the 205 of the filter less the 7 of [/decks/], and
    is itself no longer than its encoding. *)
Theorem getStaticPaths_code_length_bound (table : Table) (code : string) :
  In (StaticPage.deck_path code) (StaticPage.paths (StaticPage.getStaticPaths table)) ->
  String.length (Js.encodeURIComponent code) <= 198
  /\ String.length code <= String.length (Js.encodeURIComponent code).
Proof.
  intros Hin. split; [|apply encodeURIComponent_length].
  apply paths_are_candidates, candidates_length in Hin.
  rewrite deck_path_length in Hin. lia.
Qed.

Lemma getStaticPaths_code_length_bound_witness :
  String.length (Js.encodeURIComponent "a b") <= 198
  /\ String.length "a b" <= String.length (Js.encodeURIComponent "a b").
Proof.
  apply (getStaticPaths_code_length_bound [mkDecklyst "a b" "abc" PrivacyPublic]).
  simpl. auto.
Defined.

(** X5: the lower bound of the length filter rejects nothing, because it is
    applied to the path, which always has the 7 characters of [/decks/].  So
    an empty deckcode or sharecode of a row that is not private is listed,
    as the path [/decks/]. *)
Theorem getStaticPaths_lists_empty_code (table : Table) (d : Decklyst) :
  In d table ->
  privacy d <> PrivacyPrivate ->
  deckcode d = "" \/ sharecode d = "" ->
  In "/decks/" (StaticPage.paths (StaticPage.getStaticPaths table)).
Proof.
  intros Hd Hpriv Hempty.
  assert (Hcand : In (StaticPage.deck_path "")
                    (StaticPage.candidates (StaticPage.findMany_not_private table))).
  { apply (eligible_candidate table d); auto.
    - destruct Hempty as [->| ->]; auto.
    - apply Nat.leb_le. reflexivity. }
  destruct (candidate_represented table _ Hcand) as [p [Hp Hkey]].
  destruct (candidate_origin table p (paths_are_candidates table p Hp))
    as (d' & _ & _ & Horigin).
  assert (Hshape : exists code, p = StaticPage.deck_path code)
    by (destruct Horigin; eauto).
  destruct Hshape as [code ->].
  apply (proj1 (deck_path_key_iff _ _)) in Hkey.
  destruct code; [exact Hp | discriminate Hkey].
Qed.

Lemma getStaticPaths_lists_empty_code_witness :
  In "/decks/"
     (StaticPage.paths
        (StaticPage.getStaticPaths [mkDecklyst "MTox" "" PrivacyUnlisted])).
Proof.
  apply (getStaticPaths_lists_empty_code _ (mkDecklyst "MTox" "" PrivacyUnlisted)).
  - simpl. auto.
  - discriminate.
  - right. reflexivity.
Defined.

(** ** The results of [getStaticProps] *)

Lemma filter_all {A : Type} (l : list A) : filter (fun _ => true) l = l.
Proof. induction l as [|x l IH]; simpl; [reflexivity | now rewrite IH]. Qed.

Lemma privacy_eqb_private (d : Decklyst) :
  privacy_eqb (privacy d) PrivacyPrivate = true <-> privacy d = PrivacyPrivate.
Proof. destruct (privacy d); simpl; split; congruence. Qed.

(** X6: props never carry a private decklyst.  Whenever [getStaticProps]
    answers with props, a non-empty code was requested, the props carry that
    code, and the fetch for it resolved to a decklyst: the props hold that
    very decklyst if it is not private, and otherwise [null] with a
    dehydrated state that has no query. *)
Theorem getStaticProps_props_sound
    (server : StaticProps.Server) (ctx : StaticProps.GetStaticPropsContext)
    (props : StaticProps.Props) :
  StaticProps.getStaticProps server ctx = Js.Resolved (StaticProps.WithProps props) ->
  exists code d,
    StaticProps.requested_code ctx = Some code
    /\ code <> ""
    /\ StaticProps.props_code props = code
    /\ StaticProps.fetched server code = Js.Resolved (Some d)
    /\ match StaticProps.decklyst props with
       | Some shown => shown = d /\ privacy d <> PrivacyPrivate
       | None =>
           privacy d = PrivacyPrivate
           /\ ReactQuery.queries (StaticProps.trpcState props) = []
       end.
Proof.
  intros Hres. pose proof (getStaticProps_cases server ctx) as H.
  destruct (StaticProps.requested_code ctx) as [code|];
    [|rewrite H in Hres; discriminate].
  destruct (Js.truthy code) eqn:Htruthy; [|rewrite H in Hres; discriminate].
  destruct (StaticProps.fetched server code) as [[d|]|e] eqn:Hf;
    try (rewrite H in Hres; discriminate).
  destruct H as [state H]. rewrite H in Hres. injection Hres as <-.
  exists code, d.
  split; [reflexivity|]. split; [now apply truthy_iff|].
  split; [reflexivity|]. split; [exact Hf|].
  cbn [StaticProps.decklyst StaticProps.trpcState].
  destruct (privacy_eqb (privacy d) PrivacyPrivate) eqn:Hpriv; cbn [negb].
  - split; [now apply privacy_eqb_private|].
    now rewrite dehydrate_nothing.
  - split; [reflexivity|]. intros Hp. apply privacy_eqb_private in Hp. congruence.
Qed.

Lemma getStaticProps_props_sound_witness :
  exists code d,
    StaticProps.requested_code (StaticProps.request "abc") = Some code
    /\ code <> ""
    /\ StaticProps.fetched
         (StaticProps.tableServer "s3cret" [mkDecklyst "MTox" "abc" PrivacyPublic]) code
       = Js.Resolved (Some d).
Proof.
  destruct (getStaticProps_props_sound
              (StaticProps.tableServer "s3cret" [mkDecklyst "MTox" "abc" PrivacyPublic])
              (StaticProps.request "abc") _ eq_refl)
    as (code & d & Hcode & Hne & _ & Hfetch & _).
  exists code, d. auto.
Defined.

(** X7: a decklyst that is not private is handed over whole.  When the
    fetch for a non-empty code resolves to a decklyst that is not private,
    the props hold the decklyst and the dehydrated state holds every query
    that the client has in its cache after the fetch. *)
Theorem getStaticProps_public_dehydrates_cache
    (server : StaticProps.Server) (ctx : StaticProps.GetStaticPropsContext)
    (code : string) (d : Decklyst) (ssg : StaticProps.SSGClient) :
  StaticProps.requested_code ctx = Some code ->
  code <> "" ->
  StaticProps.fetch server
    {| StaticProps.code := code; StaticProps.ssrSecret := StaticProps.SSR_SECRET server |}
    (StaticProps.createSSGClient server)
  = (Js.Resolved (Some d), ssg) ->
  privacy d <> PrivacyPrivate ->
  StaticProps.getStaticProps server ctx
  = Js.Resolved
      (StaticProps.WithProps
         {| StaticProps.props_code := code;
            StaticProps.trpcState := {| ReactQuery.queries := StaticProps.cache ssg |};
            StaticProps.decklyst := Some d |}).
Proof.
  intros Hcode Hne Hfetch Hpub. unfold StaticProps.getStaticProps.
  apply truthy_iff in Hne. rewrite Hcode, Hne, Hfetch. simpl.
  assert (Hno : privacy_eqb (privacy d) PrivacyPrivate = false).
  { destruct (privacy_eqb (privacy d) PrivacyPrivate) eqn:E; [|reflexivity].
    apply privacy_eqb_private in E. contradiction. }
  rewrite Hno. simpl. unfold ReactQuery.dehydrate. now rewrite filter_all.
Qed.

Lemma getStaticProps_public_dehydrates_cache_witness :
  let d := mkDecklyst "MTox" "abc" PrivacyUnlisted in
  let input := {| StaticProps.code := "abc"; StaticProps.ssrSecret := "s3cret" |} in
  StaticProps.getStaticProps (StaticProps.tableServer "s3cret" [d]) (StaticProps.request "abc")
  = Js.Resolved
      (StaticProps.WithProps
         {| StaticProps.props_code := "abc";
            StaticProps.trpcState :=
              {| ReactQuery.queries :=
                   [ {| StaticProps.queryKey := input; StaticProps.queryData := Some d |} ] |};
            StaticProps.decklyst := Some d |}).
Proof.
  apply (getStaticProps_public_dehydrates_cache
           (StaticProps.tableServer "s3cret" [mkDecklyst "MTox" "abc" PrivacyUnlisted])
           (StaticProps.request "abc") "abc"
           (mkDecklyst "MTox" "abc" PrivacyUnlisted)
           {| StaticProps.cache :=
                [ {| StaticProps.queryKey :=
                       {| StaticProps.code := "abc"; StaticProps.ssrSecret := "s3cret" |};
                     StaticProps.queryData :=
                       Some (mkDecklyst "MTox" "abc" PrivacyUnlisted) |} ] |});
    [reflexivity | discriminate | reflexivity | discriminate].
Defined.

(** X8: a failed fetch fails the page.  [getStaticProps] rejects with an
    error exactly when a non-empty code was requested and the fetch for it
    rejected with that error; it turns no failure into not-found or props. *)
Theorem getStaticProps_rejects_iff
    (server : StaticProps.Server) (ctx : StaticProps.GetStaticPropsContext)
    (e : Trpc.ClientError) :
  StaticProps.getStaticProps server ctx = Js.Rejected e
  <-> exists code,
        StaticProps.requested_code ctx = Some code
        /\ code <> ""
        /\ StaticProps.fetched server code = Js.Rejected e.
Proof.
  pose proof (getStaticProps_cases server ctx) as H.
  destruct (StaticProps.requested_code ctx) as [code|].
  - destruct (Js.truthy code) eqn:Htruthy.
    + destruct (StaticProps.fetched server code) as [[d|]|e'] eqn:Hf.
      * destruct H as [state H]. rewrite H. split; [discriminate|].
        intros (c & Hc & _ & Hrej). injection Hc as <-. congruence.
      * rewrite H. split; [discriminate|].
        intros (c & Hc & _ & Hrej). injection Hc as <-. congruence.
      * rewrite H. split.
        -- intros Heq. injection Heq as ->. exists code.
           repeat split; [now apply truthy_iff | assumption].
        -- intros (c & Hc & _ & Hrej). injection Hc as <-. congruence.
    + rewrite H. split; [discriminate|].
      intros (c & Hc & Hne & _). injection Hc as <-.
      apply truthy_iff in Hne. congruence.
  - rewrite H. split; [discriminate|]. intros (c & Hc & _). discriminate.
Qed.

(** X9: the two not-found answers.  Not-found comes with [revalidate: true]
    exactly when a non-empty code was requested and the fetch resolved to no
    decklyst, and without [revalidate] exactly when the code is missing or
    empty; [revalidate: false] is never answered. *)
Theorem getStaticProps_notFound_revalidate
    (server : StaticProps.Server) (ctx : StaticProps.GetStaticPropsContext) :
  (StaticProps.getStaticProps server ctx
   = Js.Resolved (StaticProps.NotFound (Some true))
   <-> exists code,
         StaticProps.requested_code ctx = Some code
         /\ code <> ""
         /\ StaticProps.fetched server code = Js.Resolved None)
  /\ (StaticProps.getStaticProps server ctx = Js.Resolved (StaticProps.NotFound None)
      <-> StaticProps.requested_code ctx = None
          \/ StaticProps.requested_code ctx = Some "")
  /\ StaticProps.getStaticProps server ctx
     <> Js.Resolved (StaticProps.NotFound (Some false)).
Proof.
  pose proof (getStaticProps_cases server ctx) as H.
  destruct (StaticProps.requested_code ctx) as [code|].
  - destruct code as [|c code]; simpl in H.
    + rewrite H. repeat split; try discriminate; auto.
      intros (c & Hc & Hne & _). injection Hc as <-. congruence.
    + destruct (StaticProps.fetched server (String c code)) as [[d|]|e] eqn:Hf.
      * destruct H as [state H]. rewrite H. repeat split; try discriminate.
        -- intros (c' & Hc & _ & Hnone). injection Hc as <-. congruence.
        -- intros [|]; discriminate.
      * rewrite H. repeat split; try discriminate.
        -- intros _. exists (String c code). repeat split; [discriminate | assumption].
        -- intros [|]; discriminate.
      * rewrite H. repeat split; try discriminate.
        -- intros (c' & Hc & _ & Hnone). injection Hc as <-. congruence.
        -- intros [|]; discriminate.
  - rewrite H. repeat split; try discriminate; auto.
    intros (c & Hc & _). discriminate.
Qed.

(** ** The results and the calls of [getServerSideProps] *)

Section ServerPageCases.
Import ServerPage.
Variable B : Backend.
Variable req : Request B.
Variable query : Query.
Variable r : Remote B.

(** The calls of the lookup: one, for a code that is not empty. *)
Lemma resolve_issued (w w' : World B)
    (answer : Async (option string * option string)) :
  resolve B query w = (answer, w') ->
  issued w'
  = issued w
    ++ match query_code query with
       | Some c =>
           if Js.truthy c
           then [if snapshot_of B query
                 then QueryGetDeckinfo c
                 else MutationEnsureDeckinfo c]
           else []
       | None => []
       end.
Proof.
  unfold resolve, bind, ret, client_query_getDeckinfo,
    client_mutation_ensureDeckinfo, call.
  intros Hres.
  destruct (query_code query) as [c|]; [destruct (Js.truthy c)|].
  - destruct (snapshot_of B query).
    + destruct (getDeckinfo B c (remote w)) as [[info|e] r'];
        injection Hres as _ <-; reflexivity.
    + destruct (ensureDeckinfo B c (remote w)) as [[info|e] r'];
        injection Hres as _ <-; reflexivity.
  - injection Hres as _ <-. now rewrite app_nil_r.
  - injection Hres as _ <-. now rewrite app_nil_r.
Qed.

(** The page in full, by the outcome of the lookup and of the
    registration. *)
Lemma serve_cases :
  match resolve B query (mkWorld r []) with
  | (Js.Rejected e, w1) => serve B req query r = (Js.Rejected e, w1)
  | (Js.Resolved (deckcode, sharecode), w1) =>
      if validateDeckcode B deckcode then
        match cards B (createDeck B deckcode) with
        | [] => serve B req query r = (Js.Resolved NotFound, w1)
        | _ :: _ =>
            let props :=
              {| deck := createDeck B deckcode;
                 meta := {| meta_sharecode := sharecode |};
                 isSnapshot := snapshot_of B query |} in
            if snapshot_of B query
            then serve B req query r = (Js.Resolved (WithProps props), w1)
            else
              let ip := getIpAddress B req in
              let after r' :=
                mkWorld r' (issued w1 ++ [MutationRegisterView deckcode ip]) in
              match registerView B deckcode ip (remote w1) with
              | (Js.Resolved _, r') =>
                  serve B req query r = (Js.Resolved (WithProps props), after r')
              | (Js.Rejected e, r') =>
                  serve B req query r = (Js.Rejected e, after r')
              end
        end
      else serve B req query r = (Js.Resolved NotFound, w1)
  end.
Proof.
  unfold serve.
  destruct (resolve B query (mkWorld r [])) as [[[dc sc]|e] w1] eqn:Hres.
  - rewrite (getServerSideProps_after_lookup B req query _ _ _ _ Hres).
    destruct (validateDeckcode B dc); [|reflexivity]. simpl.
    destruct (cards B (createDeck B dc)) as [|card rest]; [reflexivity|]. simpl.
    destruct (snapshot_of B query); [reflexivity|]. simpl.
    unfold bind, client_mutation_registerView, call, ret.
    destruct (registerView B dc (getIpAddress B req) (remote w1)) as [[[]|e] r'];
      reflexivity.
  - now apply getServerSideProps_lookup_rejected.
Qed.
End ServerPageCases.

(** X10: only a valid deck with cards is rendered.  When the page answers
    with props, the lookup resolved; the deckcode it left passes
    [validateDeckcode]; the deck of the props is the deck created from it and
    has a card; the sharecode of the props is the one the lookup left; and
    [isSnapshot] is the snapshot flag of the request. *)
Theorem getServerSideProps_props_sound
    (B : ServerPage.Backend) (req : ServerPage.Request B)
    (query : ServerPage.Query) (r : ServerPage.Remote B)
    (props : ServerPage.Props B) (w : ServerPage.World B) :
  ServerPage.serve B req query r = (Js.Resolved (ServerPage.WithProps props), w) ->
  exists deckcode sharecode w1,
    ServerPage.resolve B query (ServerPage.mkWorld r [])
    = (Js.Resolved (deckcode, sharecode), w1)
    /\ ServerPage.validateDeckcode B deckcode = true
    /\ ServerPage.deck B props = ServerPage.createDeck B deckcode
    /\ ServerPage.cards B (ServerPage.deck B props) <> []
    /\ ServerPage.meta_sharecode (ServerPage.meta B props) = sharecode
    /\ ServerPage.isSnapshot B props = ServerPage.snapshot_of B query.
Proof.
  intros Hserve. pose proof (serve_cases B req query r) as H.
  destruct (ServerPage.resolve B query (ServerPage.mkWorld r []))
    as [[[dc sc]|e] w1]; [|congruence].
  exists dc, sc, w1. split; [reflexivity|].
  destruct (ServerPage.validateDeckcode B dc); [|congruence].
  split; [reflexivity|].
  destruct (ServerPage.cards B (ServerPage.createDeck B dc)) as [|card rest] eqn:Hcards;
    [congruence|].
  assert (Hprops : props
                   = ServerPage.mkProps B (ServerPage.createDeck B dc)
                       (ServerPage.mkMeta sc) (ServerPage.snapshot_of B query)).
  { simpl in H. destruct (ServerPage.snapshot_of B query); [congruence|].
    destruct (ServerPage.registerView B dc (ServerPage.getIpAddress B req)
                (ServerPage.remote w1)) as [[[]|e] r']; congruence. }
  subst props. simpl. rewrite Hcards. repeat split. discriminate.
Qed.

Lemma getServerSideProps_props_sound_witness :
  exists deckcode sharecode w1,
    ServerPage.resolve ServerPage.digitBackend (ServerPage.mkQuery (Some "a1") None)
      (ServerPage.mkWorld (B := ServerPage.digitBackend) 0 [])
    = (Js.Resolved (deckcode, sharecode), w1)
    /\ ServerPage.validateDeckcode ServerPage.digitBackend deckcode = true.
Proof.
  destruct (getServerSideProps_props_sound ServerPage.digitBackend "127.0.0.1"
              (ServerPage.mkQuery (Some "a1") None) 0 _ _ eq_refl)
    as (dc & sc & w1 & Hres & Hvalid & _).
  exists dc, sc, w1. auto.
Defined.

(** X11: when the page answers not-found.  The answer is not-found exactly
    when the lookup resolved and the deckcode it left either fails
    [validateDeckcode] or gives a deck without cards. *)
Theorem getServerSideProps_notFound_iff
    (B : ServerPage.Backend) (req : ServerPage.Request B)
    (query : ServerPage.Query) (r : ServerPage.Remote B) :
  fst (ServerPage.serve B req query r) = Js.Resolved ServerPage.NotFound
  <-> exists deckcode sharecode w1,
        ServerPage.resolve B query (ServerPage.mkWorld r [])
        = (Js.Resolved (deckcode, sharecode), w1)
        /\ (ServerPage.validateDeckcode B deckcode = false
            \/ ServerPage.cards B (ServerPage.createDeck B deckcode) = []).
Proof.
  pose proof (serve_cases B req query r) as H.
  destruct (ServerPage.resolve B query (ServerPage.mkWorld r []))
    as [[[dc sc]|e] w1].
  - destruct (ServerPage.validateDeckcode B dc) eqn:Hvalid.
    + destruct (ServerPage.cards B (ServerPage.createDeck B dc)) as [|card rest]
        eqn:Hcards.
      * rewrite H. simpl. split; [|reflexivity].
        intros _. exists dc, sc, w1. auto.
      * assert (Hnot : fst (ServerPage.serve B req query r)
                       <> Js.Resolved ServerPage.NotFound).
        { simpl in H. destruct (ServerPage.snapshot_of B query);
            [rewrite H; discriminate|].
          destruct (ServerPage.registerView B dc (ServerPage.getIpAddress B req)
                      (ServerPage.remote w1)) as [[[]|e] r'];
            rewrite H; discriminate. }
        split; [contradiction|].
        intros (dc' & sc' & w' & Heq & [Hv|Hc]); injection Heq as <- _ _; congruence.
    + rewrite H. simpl. split; [|reflexivity].
      intros _. exists dc, sc, w1. auto.
  - rewrite H. simpl. split; [discriminate|].
    intros (dc' & sc' & w' & Heq & _). discriminate.
Qed.

(** X12: when the page fails.  The page rejects with an error exactly when
    the lookup rejected with it, or the request is no snapshot, the deck is
    valid and has cards, and [registerView] rejected with it: a view that
    cannot be registered is not rendered. *)
Theorem getServerSideProps_rejects_iff
    (B : ServerPage.Backend) (req : ServerPage.Request B)
    (query : ServerPage.Query) (r : ServerPage.Remote B) (e : Trpc.ClientError) :
  fst (ServerPage.serve B req query r) = Js.Rejected e
  <-> (exists w1,
         ServerPage.resolve B query (ServerPage.mkWorld r []) = (Js.Rejected e, w1))
      \/ (exists deckcode sharecode w1 r',
            ServerPage.resolve B query (ServerPage.mkWorld r [])
            = (Js.Resolved (deckcode, sharecode), w1)
            /\ ServerPage.snapshot_of B query = false
            /\ ServerPage.validateDeckcode B deckcode = true
            /\ ServerPage.cards B (ServerPage.createDeck B deckcode) <> []
            /\ ServerPage.registerView B deckcode (ServerPage.getIpAddress B req)
                 (ServerPage.remote w1)
               = (Js.Rejected e, r')).
Proof.
  pose proof (serve_cases B req query r) as H.
  destruct (ServerPage.resolve B query (ServerPage.mkWorld r []))
    as [[[dc sc]|e'] w1].
  - split.
    + intros Hrej. right.
      destruct (ServerPage.validateDeckcode B dc) eqn:Hvalid;
        [|rewrite H in Hrej; discriminate].
      destruct (ServerPage.cards B (ServerPage.createDeck B dc)) as [|card rest]
        eqn:Hcards; [rewrite H in Hrej; discriminate|].
      simpl in H. destruct (ServerPage.snapshot_of B query) eqn:Hsnap;
        [rewrite H in Hrej; discriminate|].
      destruct (ServerPage.registerView B dc (ServerPage.getIpAddress B req)
                  (ServerPage.remote w1)) as [[[]|e''] r'] eqn:Hreg;
        rewrite H in Hrej; [discriminate|].
      injection Hrej as ->. exists dc, sc, w1, r'.
      rewrite Hcards. repeat split; auto. discriminate.
    + intros [[w' Heq]|(dc' & sc' & w' & r' & Heq & Hsnap & Hvalid & Hcards & Hreg)];
        [discriminate|].
      injection Heq as <- <- <-. rewrite Hvalid in H.
      destruct (ServerPage.cards B (ServerPage.createDeck B dc)); [contradiction|].
      simpl in H. rewrite Hsnap, Hreg in H. now rewrite H.
  - rewrite H. simpl. split.
    + intros Heq. injection Heq as ->. left. now exists w1.
    + intros [[w' Heq]|(dc' & sc' & w' & r' & Heq & _)]; congruence.
Qed.

(** X13: a snapshot request only reads.  With the snapshot flag on, the page
    issues the [getDeckinfo] query for a code that is not empty and nothing
    else: neither [ensureDeckinfo] nor [registerView]. *)
Theorem snapshot_request_only_reads
    (B : ServerPage.Backend) (req : ServerPage.Request B)
    (query : ServerPage.Query) (r : ServerPage.Remote B) :
  ServerPage.snapshot_of B query = true ->
  ServerPage.issued (snd (ServerPage.serve B req query r))
  = match ServerPage.query_code query with
    | Some c => if Js.truthy c then [ServerPage.QueryGetDeckinfo c] else []
    | None => []
    end.
Proof.
  intros Hsnap. pose proof (serve_cases B req query r) as H.
  destruct (ServerPage.resolve B query (ServerPage.mkWorld r []))
    as [answer w1] eqn:Hres.
  pose proof (resolve_issued B query _ _ _ Hres) as Hcalls.
  rewrite Hsnap in Hcalls. simpl in Hcalls. rewrite <- Hcalls.
  destruct answer as [[dc sc]|e]; [|now rewrite H].
  destruct (ServerPage.validateDeckcode B dc); [|now rewrite H].
  destruct (ServerPage.cards B (ServerPage.createDeck B dc)); [now rewrite H|].
  simpl in H. rewrite Hsnap in H. now rewrite H.
Qed.

Lemma snapshot_request_only_reads_witness :
  ServerPage.issued
    (snd (ServerPage.serve ServerPage.digitBackend "127.0.0.1"
            (ServerPage.mkQuery (Some "a1") (Some "1")) 0))
  = [ServerPage.QueryGetDeckinfo "a1"].
Proof.
  apply (snapshot_request_only_reads ServerPage.digitBackend "127.0.0.1"
           (ServerPage.mkQuery (Some "a1") (Some "1")) 0).
  reflexivity.
Defined.

(** X14: the calls of a request that is no snapshot.  The page issues
    [ensureDeckinfo] for a code that is not empty, and after it either
    nothing or one [registerView], for the address of the request: a view is
    registered at most once, and last. *)
Theorem view_request_calls
    (B : ServerPage.Backend) (req : ServerPage.Request B)
    (query : ServerPage.Query) (r : ServerPage.Remote B) :
  ServerPage.snapshot_of B query = false ->
  exists register,
    ServerPage.issued (snd (ServerPage.serve B req query r))
    = match ServerPage.query_code query with
      | Some c => if Js.truthy c then [ServerPage.MutationEnsureDeckinfo c] else []
      | None => []
      end ++ register
    /\ (register = []
        \/ exists deckcode,
             register
             = [ServerPage.MutationRegisterView deckcode (ServerPage.getIpAddress B req)]).
Proof.
  intros Hsnap. pose proof (serve_cases B req query r) as H.
  destruct (ServerPage.resolve B query (ServerPage.mkWorld r []))
    as [answer w1] eqn:Hres.
  pose proof (resolve_issued B query _ _ _ Hres) as Hcalls.
  rewrite Hsnap in Hcalls. simpl in Hcalls. rewrite <- Hcalls.
  destruct answer as [[dc sc]|e];
    [|exists []; rewrite H, app_nil_r; auto].
  destruct (ServerPage.validateDeckcode B dc);
    [|exists []; rewrite H, app_nil_r; auto].
  destruct (ServerPage.cards B (ServerPage.createDeck B dc));
    [exists []; rewrite H, app_nil_r; auto|].
  simpl in H. rewrite Hsnap in H.
  exists [ServerPage.MutationRegisterView dc (ServerPage.getIpAddress B req)].
  split; [|right; now exists dc].
  destruct (ServerPage.registerView B dc (ServerPage.getIpAddress B req)
              (ServerPage.remote w1)) as [[[]|e] r']; now rewrite H.
Qed.

Lemma view_request_calls_witness :
  exists register,
    ServerPage.issued
      (snd (ServerPage.serve ServerPage.digitBackend "127.0.0.1"
              (ServerPage.mkQuery (Some "a1") None) 0))
    = [ServerPage.MutationEnsureDeckinfo "a1"] ++ register
    /\ (register = []
        \/ exists deckcode,
             register = [ServerPage.MutationRegisterView deckcode "127.0.0.1"]).
Proof.
  apply (view_request_calls ServerPage.digitBackend "127.0.0.1"
           (ServerPage.mkQuery (Some "a1") None) 0).
  reflexivity.
Defined.

(** ** The retryer under the two retry options *)

Lemma retry_true_lt (count : nat) (error : Trpc.ClientError) :
  DeckPage.retry count error = true -> count < 3.
Proof.
  unfold DeckPage.retry.
  destruct (match Trpc.error_code error with
            | Some c => String.eqb c "UNAUTHORIZED"
            | None => false
            end); [discriminate | apply Nat.ltb_lt].
Qed.

Lemma deck_query_stops (A : Type) (retryDelay : Z -> Z) (fn : nat -> Async A)
    (budget k : nat) (slept : list Z) :
  3 <= k + budget -> k <= 3 ->
  (exists v n s,
      ReactQuery.run DeckPage.retryOption retryDelay fn budget k slept
      = ReactQuery.Succeeded v n s
      /\ k <= n <= 3 /\ List.length s = List.length slept + (n - k)
      /\ fn n = Js.Resolved v)
  \/ (exists e n s,
        ReactQuery.run DeckPage.retryOption retryDelay fn budget k slept
        = ReactQuery.GaveUp e n s
        /\ k <= n <= 3 /\ List.length s = List.length slept + (n - k)
        /\ fn n = Js.Rejected e).
Proof.
  revert k slept. induction budget as [|budget IH]; intros k slept Hsum Hk.
  - simpl. destruct (fn k) as [v|e] eqn:Hfn.
    + left. exists v, k, slept. repeat split; auto; lia.
    + destruct (DeckPage.retry k e) eqn:Hretry.
      * apply retry_true_lt in Hretry. lia.
      * right. exists e, k, slept. repeat split; auto; lia.
  - simpl. destruct (fn k) as [v|e] eqn:Hfn.
    + left. exists v, k, slept. repeat split; auto; lia.
    + destruct (DeckPage.retry k e) eqn:Hretry.
      * apply retry_true_lt in Hretry.
        destruct (IH (S k) (slept ++ [retryDelay (Z.of_nat k)])) as
          [(v & n & s & Hrun & Hn & Hs & Hv)|(e' & n & s & Hrun & Hn & Hs & He)];
          try lia.
        -- left. exists v, n, s. rewrite Hrun. rewrite length_app in Hs. simpl in Hs.
           repeat split; auto; lia.
        -- right. exists e', n, s. rewrite Hrun. rewrite length_app in Hs. simpl in Hs.
           repeat split; auto; lia.
      * right. exists e, k, slept. repeat split; auto; lia.
Qed.

(** X15: the deck query stops within four attempts.  Whatever the calls
    answer, the retryer under the page's retry predicate ends after at most
    three retries, with as many delays slept: with the value of the call
    that resolved, or with the error of the call at which it gave up. *)
Theorem deck_query_stops_within_four_attempts
    (A : Type) (retryDelay : Z -> Z) (fn : nat -> Async A) (budget : nat) :
  3 <= budget ->
  (exists v n slept,
      ReactQuery.run DeckPage.retryOption retryDelay fn budget 0 []
      = ReactQuery.Succeeded v n slept
      /\ n <= 3 /\ List.length slept = n /\ fn n = Js.Resolved v)
  \/ (exists e n slept,
        ReactQuery.run DeckPage.retryOption retryDelay fn budget 0 []
        = ReactQuery.GaveUp e n slept
        /\ n <= 3 /\ List.length slept = n /\ fn n = Js.Rejected e).
Proof.
  intros Hbudget.
  destruct (deck_query_stops A retryDelay fn budget 0 [])
    as [(v & n & s & Hrun & Hn & Hs & Hv)|(e & n & s & Hrun & Hn & Hs & He)];
    try lia.
  - left. exists v, n, s. simpl in Hs. repeat split; auto; lia.
  - right. exists e, n, s. simpl in Hs. repeat split; auto; lia.
Qed.

Lemma deck_query_stops_within_four_attempts_witness :
  let timeout := Trpc.mkClientError "late" (Some (Trpc.mkErrorData "TIMEOUT")) in
  let fn := fun k : nat => if k <? 2 then Js.Rejected timeout else Js.Resolved k in
  (exists v n slept,
      ReactQuery.run DeckPage.retryOption (fun _ => 1000%Z) fn 5 0 []
      = ReactQuery.Succeeded v n slept
      /\ n <= 3 /\ List.length slept = n /\ fn n = Js.Resolved v)
  \/ (exists e n slept,
        ReactQuery.run DeckPage.retryOption (fun _ => 1000%Z) fn 5 0 []
        = ReactQuery.GaveUp e n slept
        /\ n <= 3 /\ List.length slept = n /\ fn n = Js.Rejected e).
Proof.
  apply (deck_query_stops_within_four_attempts nat (fun _ => 1000%Z)
           (fun k : nat =>
              if k <? 2
              then Js.Rejected
                     (Trpc.mkClientError "late" (Some (Trpc.mkErrorData "TIMEOUT")))
              else Js.Resolved k) 5).
  apply Nat.leb_le. reflexivity.
Defined.

(** X16: the deck-image query waits for the first success.  When the calls
    fail up to one that resolves, the retryer under [retry: true] ends with
    the value of that call, having slept the delay of every failure before
    it. *)
Theorem deck_image_query_waits_for_success
    (A : Type) (fn : nat -> Async A) (k budget : nat) (v : A) :
  fn k = Js.Resolved v ->
  (forall i, i < k -> exists e, fn i = Js.Rejected e) ->
  k <= budget ->
  ReactQuery.run ServerPage.retryOption ServerPage.retryDelay fn budget 0 []
  = ReactQuery.Succeeded v k
      (map (fun i => ServerPage.retryDelay (Z.of_nat i)) (seq 0 k)).
Proof.
  intros Hk Hfail Hbudget.
  rewrite (run_retries ServerPage.retryOption ServerPage.retryDelay fn k);
    [|assumption
     |intros i Hi; destruct (Hfail i ltac:(lia)) as [e He]; exists e; now split].
  simpl. destruct (budget - k); simpl; now rewrite Hk.
Qed.

Lemma deck_image_query_waits_for_success_witness :
  let busy := Trpc.mkClientError "rendering" None in
  ReactQuery.run ServerPage.retryOption ServerPage.retryDelay
    (fun k : nat => if k <? 7 then Js.Rejected busy else Js.Resolved "png") 9 0 []
  = ReactQuery.Succeeded "png" 7 [1000; 1000; 1000; 1000; 1000; 1000; 2000]%Z.
Proof.
  apply (deck_image_query_waits_for_success string
           (fun k : nat =>
              if k <? 7 then Js.Rejected (Trpc.mkClientError "rendering" None)
              else Js.Resolved "png") 7 9 "png").
  - reflexivity.
  - intros i Hi. exists (Trpc.mkClientError "rendering" None).
    apply Nat.ltb_lt in Hi. now rewrite Hi.
  - apply Nat.leb_le. reflexivity.
Defined.

(** X17: the deck-image query never gives up.  Under [retry: true] no
    sequence of answers makes the retryer reject: it ends with a value or is
    still retrying. *)
Theorem deck_image_query_never_gives_up
    (A : Type) (retryDelay : Z -> Z) (fn : nat -> Async A)
    (budget k : nat) (slept : list Z) :
  forall e n s,
    ReactQuery.run ServerPage.retryOption retryDelay fn budget k slept
    <> ReactQuery.GaveUp e n s.
Proof.
  revert k slept. induction budget as [|budget IH]; intros k slept e n s; simpl.
  - destruct (fn k); discriminate.
  - destruct (fn k); [discriminate | apply IH].
Qed.

(** X18: the backoff never shrinks.  The delay is at least one second for
    every retry count and does not decrease as the count grows. *)
Theorem retryDelay_monotone (m n : Z) :
  (m <= n)%Z ->
  (1000 <= ServerPage.retryDelay m <= ServerPage.retryDelay n)%Z.
Proof.
  intros Hmn. unfold ServerPage.retryDelay.
  assert (H1 : (1 <= 2 ^ Z.max 0 (m - 5))%Z).
  { change 1%Z with (2 ^ 0)%Z at 1. apply Z.pow_le_mono_r; lia. }
  assert (H2 : (2 ^ Z.max 0 (m - 5) <= 2 ^ Z.max 0 (n - 5))%Z).
  { apply Z.pow_le_mono_r; lia. }
  lia.
Qed.

Lemma retryDelay_monotone_witness :
  (1000 <= ServerPage.retryDelay 3 <= ServerPage.retryDelay 9)%Z.
Proof. apply retryDelay_monotone. lia. Defined.

(** ** The form of the save-deck dialog *)

Section FormFacts.
Import SaveDeckForm.

Lemma deps_eqb_open (a b : Deps) : deps_eqb a b = true -> snd a = snd b.
Proof.
  destruct a as [[arch_a priv_a] open_a], b as [[arch_b priv_b] open_b]. simpl.
  rewrite !andb_true_iff. intros [_ Hopen]. now apply Bool.eqb_prop.
Qed.

Lemma step_render_open (m : Mounted) (props : Props) :
  snd (last_deps (step m (Render props))) = open props.
Proof.
  simpl. destruct (deps_eqb (last_deps m) (deps_of props)) eqn:Hdeps; [|reflexivity].
  now rewrite (deps_eqb_open _ _ Hdeps).
Qed.

Lemma reopen_state (m : Mounted) (closed opened : Props) :
  open closed = false -> open opened = true ->
  state (step (step m (Render closed)) (Render opened)) = initial_state opened.
Proof.
  intros Hclosed Hopened.
  pose proof (step_render_open m closed) as Hlast. rewrite Hclosed in Hlast.
  remember (step m (Render closed)) as m1. simpl.
  destruct (deps_eqb (last_deps m1) (deps_of opened)) eqn:Hdeps.
  - apply deps_eqb_open in Hdeps. simpl in Hdeps. congruence.
  - simpl. unfold effect. now rewrite Hopened.
Qed.
End FormFacts.

(** X19: opening the dialog resets the form.  Whatever was picked before,
    once the dialog has been rendered closed and is then rendered open, the
    form holds the archetype of the base deck, or none, and its privacy, or
    unlisted; a save at that point sends exactly these, under the deckcode of
    the deck. *)
Theorem dialog_reopen_resets_form
    (m : SaveDeckForm.Mounted) (closed opened : SaveDeckForm.Props)
    (deckcode : string) (update : bool) :
  SaveDeckForm.open closed = false ->
  SaveDeckForm.open opened = true ->
  let reopened :=
    SaveDeckForm.run m [SaveDeckForm.Render closed; SaveDeckForm.Render opened] in
  SaveDeckForm.state reopened
  = {| SaveDeckForm.archetype := SaveDeckForm.base_archetype opened;
       SaveDeckForm.privacy :=
         Js.nullish (SaveDeckForm.base_privacy opened) PrivacyUnlisted |}
  /\ SaveDeckForm.upsert_input opened deckcode (SaveDeckForm.state reopened) update
     = {| SaveDeckForm.input_sharecode :=
            if update then SaveDeckForm.base_sharecode opened else None;
          SaveDeckForm.input_deckcode := deckcode;
          SaveDeckForm.input_archetype := SaveDeckForm.base_archetype opened;
          SaveDeckForm.input_privacy :=
            Js.nullish (SaveDeckForm.base_privacy opened) PrivacyUnlisted |}.
Proof.
  intros Hclosed Hopened reopened. subst reopened.
  unfold SaveDeckForm.run. cbn [fold_left].
  rewrite (reopen_state m closed opened Hclosed Hopened).
  split; reflexivity.
Qed.

Lemma dialog_reopen_resets_form_witness :
  let picked :=
    SaveDeckForm.run (SaveDeckForm.mount (SaveDeckForm.mkProps true None))
      [SaveDeckForm.PickPrivacy PrivacyPublic; SaveDeckForm.PickArchetype "aggro"] in
  SaveDeckForm.state
    (SaveDeckForm.run picked
       [SaveDeckForm.Render (SaveDeckForm.mkProps false None);
        SaveDeckForm.Render (SaveDeckForm.mkProps true None)])
  = {| SaveDeckForm.archetype := None; SaveDeckForm.privacy := PrivacyUnlisted |}.
Proof.
  apply (dialog_reopen_resets_form
           (SaveDeckForm.run (SaveDeckForm.mount (SaveDeckForm.mkProps true None))
              [SaveDeckForm.PickPrivacy PrivacyPublic; SaveDeckForm.PickArchetype "aggro"])
           (SaveDeckForm.mkProps false None) (SaveDeckForm.mkProps true None)
           "MTox" false);
    reflexivity.
Defined.

(** X20: what the buttons send.  Every button of the dialog is disabled
    exactly while a save is in flight.  A button that updates is offered
    only when the base deck has a non-empty sharecode, and its save sends
    that sharecode; every other button sends no sharecode, so it saves a new
    deck. *)
Theorem dialog_buttons_sharecode
    (props : SaveDeckForm.Props) (isSaving : bool) (deckcode : string)
    (s : SaveDeckForm.State) (b : SaveDeckForm.Button) :
  In b (SaveDeckForm.buttons props isSaving) ->
  SaveDeckForm.disabled b = isSaving
  /\ (SaveDeckForm.update b = true ->
      exists sc,
        sc <> ""
        /\ SaveDeckForm.base_sharecode props = Some sc
        /\ SaveDeckForm.input_sharecode
             (SaveDeckForm.upsert_input props deckcode s (SaveDeckForm.update b))
           = Some sc)
  /\ (SaveDeckForm.update b = false ->
      SaveDeckForm.input_sharecode
        (SaveDeckForm.upsert_input props deckcode s (SaveDeckForm.update b))
      = None).
Proof.
  unfold SaveDeckForm.buttons, SaveDeckForm.upsert_input.
  destruct (SaveDeckForm.base_sharecode props) as [sc|] eqn:Hsc; simpl.
  - destruct sc as [|c sc]; simpl.
    + intros [<-|[]]; simpl.
      split; [reflexivity|]. split; [discriminate | reflexivity].
    + intros [<-|[<-|[]]]; simpl.
      * split; [reflexivity|]. split; [discriminate | reflexivity].
      * split; [reflexivity|]. split; [|discriminate].
        intros _. exists (String c sc).
        split; [discriminate|]. split; reflexivity.
  - intros [<-|[]]; simpl.
    split; [reflexivity|]. split; [discriminate | reflexivity].
Qed.

Lemma dialog_buttons_sharecode_witness :
  let props :=
    SaveDeckForm.mkProps true
      (Some (SaveDeckForm.mkDeckExpanded
               (Some (SaveDeckForm.mkMeta (Some "abc") None (Some PrivacyPublic))))) in
  let b := SaveDeckForm.mkButton "Update deck" true false in
  SaveDeckForm.disabled b = false
  /\ (SaveDeckForm.update b = true ->
      exists sc,
        sc <> ""
        /\ SaveDeckForm.base_sharecode props = Some sc
        /\ SaveDeckForm.input_sharecode
             (SaveDeckForm.upsert_input props "MTox"
                (SaveDeckForm.mkState None PrivacyPublic) (SaveDeckForm.update b))
           = Some sc)
  /\ (SaveDeckForm.update b = false ->
      SaveDeckForm.input_sharecode
        (SaveDeckForm.upsert_input props "MTox"
           (SaveDeckForm.mkState None PrivacyPublic) (SaveDeckForm.update b))
      = None).
Proof.
  apply (dialog_buttons_sharecode
           (SaveDeckForm.mkProps true
              (Some (SaveDeckForm.mkDeckExpanded
                       (Some (SaveDeckForm.mkMeta (Some "abc") None (Some PrivacyPublic))))))
           false "MTox" (SaveDeckForm.mkState None PrivacyPublic)
           (SaveDeckForm.mkButton "Update deck" true false)).
  simpl. auto.
Defined.

(** X21: the dialog closes only after the save and the navigation.  The
    save handler calls [onClose] exactly when it resolves, which is when
    both [upsertDeck] and [router.push] resolved; it then has upserted,
    pushed the sharecode of the answer and closed, in this order.  When
    [upsertDeck] rejects, nothing follows the upsert and the handler rejects
    with its error; when [router.push] rejects, the dialog stays open. *)
Theorem save_closes_after_navigation
    (upsertDeck : SaveDeckForm.UpsertInput -> Async SaveDeckForm.Updated)
    (push : option string -> Async bool)
    (props : SaveDeckForm.Props) (deckcode : string)
    (s : SaveDeckForm.State) (update : bool) :
  let input := SaveDeckForm.upsert_input props deckcode s update in
  let actions :=
    fst (SaveDeckForm.createSaveHandler upsertDeck push props deckcode s update) in
  let outcome :=
    snd (SaveDeckForm.createSaveHandler upsertDeck push props deckcode s update) in
  (In SaveDeckForm.OnClose actions <-> outcome = Js.Resolved tt)
  /\ (outcome = Js.Resolved tt <->
      exists updated ok,
        upsertDeck input = Js.Resolved updated
        /\ push (SaveDeckForm.updated_sharecode updated) = Js.Resolved ok
        /\ actions
           = [SaveDeckForm.UpsertDeck input;
              SaveDeckForm.RouterPush (SaveDeckForm.updated_sharecode updated);
              SaveDeckForm.OnClose])
  /\ (forall e, upsertDeck input = Js.Rejected e ->
        actions = [SaveDeckForm.UpsertDeck input] /\ outcome = Js.Rejected e)
  /\ (forall updated e,
        upsertDeck input = Js.Resolved updated ->
        push (SaveDeckForm.updated_sharecode updated) = Js.Rejected e ->
        actions
        = [SaveDeckForm.UpsertDeck input;
           SaveDeckForm.RouterPush (SaveDeckForm.updated_sharecode updated)]
        /\ outcome = Js.Rejected e).
Proof.
  intros input actions outcome. subst actions outcome.
  unfold SaveDeckForm.createSaveHandler. fold input.
  destruct (upsertDeck input) as [updated|e] eqn:Hupsert.
  - destruct (push (SaveDeckForm.updated_sharecode updated)) as [ok|e] eqn:Hpush; simpl.
    + split; [split; auto|]. split.
      * split; [|reflexivity]. intros _. exists updated, ok. rewrite Hpush. auto.
      * split; [discriminate|]. intros u e Hu. injection Hu as <-. congruence.
    + split.
      * split; [intros [H|[H|[]]]; discriminate | discriminate].
      * split.
        -- split; [discriminate|].
           intros (u & ok & Hu & Hp & _). injection Hu as <-. congruence.
        -- split; [discriminate|].
           intros u e' Hu Hp. injection Hu as <-. split; [reflexivity|]. congruence.
  - simpl. split.
    + split; [intros [H|[]]; discriminate | discriminate].
    + split.
      * split; [discriminate|]. intros (u & ok & Hu & _). discriminate.
      * split; [|discriminate]. intros e' He. injection He as <-. auto.
Qed.

(** ** The deck image of a snapshot page *)

(** X22: a snapshot page asks for no deck image.  On a page served with
    [isSnapshot] true, whatever runs and whatever is clicked, no
    [ensureDeckimage] call is made and [imageDataUri] stays [null]: the query
    is not enabled, and the Regenerate button, the only other way to the
    call, stays disabled. *)
Theorem snapshot_page_requests_no_image
    (Image : Type) (getImageDataUri : Image -> string) (deckcode : string)
    (events : list (DeckImage.Event Image)) :
  DeckImage.run Image getImageDataUri deckcode (DeckImage.initial true) events
  = DeckImage.initial true.
Proof.
  unfold DeckImage.run.
  induction events as [|ev events IH]; [reflexivity|].
  simpl. destruct ev; exact IH.
Qed.
